(** * rtlive.preprocessing: holiday calendars and test-count imputation

    A shallow embedding of [src/rtlive/preprocessing.py]:
    [get_holidays], [predict_testcounts] and
    [predict_testcounts_all_regions].

    - A [pandas.Timestamp] of a daily index is a calendar date.
    - A float is [option Q]; [None] is NaN.
    - A [pandas.Series] is an object with an index name, a name and its
      (label, value) entries in positional order.
    - Python dictionaries and sets are [gmap] and [gset].
    - Statements run in a state-and-exception monad; the state holds the
      objects the caller shares with the function and the log of the calls
      made to the external packages ([holidays], [fbprophet]).
    - The external packages are the fields of the class [Packages]. *)

From Stdlib Require Import ZArith QArith Lia List String Sorting.Sorted.
From stdpp Require Import base gmap sets list strings sorting.

Local Open Scope string_scope.
Local Open Scope Z_scope.

(** ** Timestamps *)

Record Timestamp := mkTimestamp { year : Z; month : Z; day : Z }.

#[global] Instance Timestamp_eq_dec : EqDecision Timestamp.
Proof. solve_decision. Defined.

#[global] Instance Timestamp_countable : Countable Timestamp.
Proof.
  refine (inj_countable' (fun t => (year t, month t, day t))
            (fun p => mkTimestamp p.1.1 p.1.2 p.2) _).
  by intros [].
Defined.

(** [a <= b] on timestamps: lexicographic on (year, month, day). *)
Definition Timestamp_leb (a b : Timestamp) : bool :=
  if year a <? year b then true
  else if year b <? year a then false
  else if month a <? month b then true
  else if month b <? month a then false
  else day a <=? day b.

(** [a >= b], as in [testcounts.index >= ignore_before]. *)
Definition Timestamp_geb (a b : Timestamp) : bool := Timestamp_leb b a.

(** Python's [max(a, b)]: the first argument unless the second is larger. *)
Definition Timestamp_max (a b : Timestamp) : Timestamp :=
  if Timestamp_leb b a then a else b.

(** [datetime.date.toordinal], used by [(t1 - t0).days]. *)
Definition is_leap (y : Z) : bool :=
  (y mod 4 =? 0) && (negb (y mod 100 =? 0) || (y mod 400 =? 0)).

Definition days_before_year (y : Z) : Z :=
  let y1 := y - 1 in y1 * 365 + y1 / 4 - y1 / 100 + y1 / 400.

Definition days_before_month (y m : Z) : Z :=
  nth (Z.to_nat m) [0; 0; 31; 59; 90; 120; 151; 181; 212; 243; 273; 304; 334] 0
  + (if (2 <? m) && is_leap y then 1 else 0).

Definition toordinal (t : Timestamp) : Z :=
  days_before_year (year t) + days_before_month (year t) (month t) + day t.

Definition days_between (t1 t0 : Timestamp) : Z := toordinal t1 - toordinal t0.

(** ** Floats, series and frames *)

(** A float; [None] is NaN. *)
Abbreviation float := (option Q).

Definition isnan (v : float) : bool :=
  match v with None => true | Some _ => false end.

Record Series := mkSeries {
  index_name : option string;
  name : option string;
  entries : list (Timestamp * float)
}.

Definition index (s : Series) : list Timestamp := map fst (entries s).
Definition values (s : Series) : list float := map snd (entries s).

(** [Series.sort_index]: ascending by label.  Entries with equal labels keep
    their relative order. *)
Fixpoint insert_entry (e : Timestamp * float) (l : list (Timestamp * float))
  : list (Timestamp * float) :=
  match l with
  | [] => [e]
  | e' :: l' =>
      if Timestamp_leb (fst e) (fst e') then e :: e' :: l'
      else e' :: insert_entry e l'
  end.

Fixpoint sort_index (l : list (Timestamp * float)) : list (Timestamp * float) :=
  match l with
  | [] => []
  | e :: l' => insert_entry e (sort_index l')
  end.

(** ** Exceptions *)

Inductive Exception :=
| IndexError                                   (* [index[0]] of an empty index *)
| KeyError_iso3166 (country : string)          (* raised by [iso3166.countries.get] *)
| KeyError_country (alpha3 : string)           (* line 49 *)
| KeyError_region (region alpha3 : string)     (* line 70 *)
| AttributeError (attribute : string)          (* [x.PROVINCES] of an [x] without it *)
| TypeError_not_callable                       (* a call of what is no class *)
| KeyError_xs (region : string)                (* [df.xs(region)] without such rows *)
| ValueError_regional_holidays                 (* line 150 *)
| ValueError_duplicate_labels                  (* pandas: reindexing a duplicate axis *)
| ProphetError (msg : string)                  (* raised inside [fbprophet] *)
| AssertionError                               (* [numpy.testing.assert_array_equal] *)
| KeyError_column (column : string).           (* [df[column]] of a missing column *)

(** ** The state-and-exception monad *)

Module M.
Definition t (S A : Type) : Type := S -> S * (Exception + A).

Definition ret {S A} (a : A) : t S A := fun s => (s, inr a).
Definition bind {S A B} (m : t S A) (k : A -> t S B) : t S B :=
  fun s =>
    match m s with
    | (s', inl e) => (s', inl e)
    | (s', inr a) => k a s'
    end.
Definition raise {S A} (e : Exception) : t S A := fun s => (s, inl e).
Definition get {S} : t S S := fun s => (s, inr s).
Definition modify {S} (f : S -> S) : t S unit := fun s => (f s, inr tt).
(** Lift a computation that cannot touch the state. *)
Definition lift {S A} (r : Exception + A) : t S A := fun s => (s, r).
End M.

Declare Scope py_scope.
Delimit Scope py_scope with py.
Notation "x <- c1 ;; c2" := (M.bind c1 (fun x => c2))
  (at level 100, c1 at next level, right associativity) : py_scope.
Notation "c1 ;; c2" := (M.bind c1 (fun _ => c2))
  (at level 100, right associativity) : py_scope.

(** ** The external packages *)

(** [region] arguments: [None], a string, or a list of strings. *)
Inductive RegionSel :=
| RNone
| RStr (s : string)
| RList (l : list string).

(** [not region] *)
Definition falsy (region : RegionSel) : bool :=
  match region with
  | RNone => true
  | RStr s => bool_decide (s = "")
  | RList l => bool_decide (l = [])
  end.

(** [region == "all"] *)
Definition eq_all (region : RegionSel) : bool :=
  match region with
  | RStr s => bool_decide (s = "all")
  | _ => false
  end.

(** [numpy.atleast_1d(region)]; [None] becomes the one-element array
    [[None]]. *)
Definition atleast_1d (region : RegionSel) : list (option string) :=
  match region with
  | RNone => [None]
  | RStr s => [Some s]
  | RList l => map Some l
  end.

(** [NamedDates]: a dictionary from dates to holiday names. *)
Abbreviation NamedDates := (gmap Timestamp string).

(** A country class of the [holidays] package.  [PROVINCES] is inherited
    from the base class and always there; [STATES] is an attribute of some
    classes only.  [construct years prov state] is
    [country_cls(years=years, prov=prov, state=state)]. *)
Record HolidayBase := {
  PROVINCES : list string;
  STATES : option (list string);
  construct : gset Z -> option string -> option string -> NamedDates
}.

(** What [getattr(holidays, name)] can be for the name of a country: a
    country class, or a constant of the package that happens to have the
    name (the month [MAR] is 3, and [MAR] is Morocco). *)
Inductive Attribute :=
| CountryClass (country_cls : HolidayBase)
| Constant (n : Z).

(** Keyword values given to [fbprophet.Prophet]. *)
Record HolidayRow := { h_ds : Timestamp; h_name : string; h_holiday : string }.

Inductive KwValue :=
| KwStr (s : string)
| KwBool (b : bool)
| KwInt (z : Z)
| KwFrame (df : list HolidayRow).

(** The frames given to [Prophet.fit] and [Prophet.predict]: a date column
    [ds], one value column ([y] or [total]) and, for logistic growth, the
    constant columns [floor] and [cap]. *)
Record Frame := {
  value_column : string;
  rows : list (Timestamp * float);
  floor_cap : option (Z * float)
}.

Class Packages := {
  (** [iso3166.countries.get(country).alpha3]; [None] when it raises *)
  iso3166_alpha3 : string -> option string;
  (** [getattr(holidays, country)]; [None] when [hasattr] is false *)
  holidays_getattr : string -> option Attribute;
  (** [HolidayBase.__setitem__] on a date that has a name already: the name
      it stores, given the new name and the one that is there *)
  holidays_stored_name : string -> string -> string;
  (** the model object *)
  Prophet : Type;
  Prophet_init : gmap string KwValue -> Exception + Prophet;
  Prophet_fit : Prophet -> Frame -> Exception + Prophet;
  (** the columns [ds] and [yhat] of the forecast frame *)
  Prophet_predict : Prophet -> Frame -> Exception + list (Timestamp * Q)
}.

(** ** get_holidays *)

Section get_holidays.
Context `{Packages}.

(** Lines 53-59: the regions the loop visits. *)
Definition requested_regions (country_cls : HolidayBase) (region : RegionSel)
  : list (option string) :=
  let use_states := bool_decide (is_Some (STATES country_cls)) in
  let region := if falsy region then RList [] else region in
  if eq_all region then
    map Some (if use_states then default [] (STATES country_cls)
              else PROVINCES country_cls)
  else atleast_1d region.

(** [str(region)] in the message of line 71. *)
Definition region_repr (region : option string) : string :=
  default "None" region.

(** [result.update(other)]: [HolidayBase.update] sets every date of [other]
    through [__setitem__], which decides the name of a date that is in both. *)
Definition HolidayBase_update (other result : NamedDates) : NamedDates :=
  union_with (fun new old => Some (holidays_stored_name new old)) other result.

(** Lines 62-72: the loop. *)
Fixpoint add_regions (country : string) (country_cls : HolidayBase)
    (years : gset Z) (regions : list (option string)) (result : NamedDates)
  : Exception + NamedDates :=
  match regions with
  | [] => inr result
  | region :: regions' =>
      let is_province :=
        bool_decide (region ∈ map Some (PROVINCES country_cls)) in
      let is_state :=
        match STATES country_cls with
        | Some states => bool_decide (region ∈ map Some states)
        | None => false
        end in
      if is_province then
        add_regions country country_cls years regions'
          (HolidayBase_update (construct country_cls years region None) result)
      else if is_state then
        add_regions country country_cls years regions'
          (HolidayBase_update (construct country_cls years None region) result)
      else inl (KeyError_region (region_repr region) country)
  end.

Definition get_holidays (country : string) (region : RegionSel)
    (years : gset Z) : Exception + NamedDates :=
  match iso3166_alpha3 country with
  | None => inl (KeyError_iso3166 country)
  | Some country =>
      match holidays_getattr country with
      | None => inl (KeyError_country country)
      | Some (CountryClass country_cls) =>
          let regions := requested_regions country_cls region in
          let result := construct country_cls years None None in
          add_regions country country_cls years regions result
      | Some (Constant _) =>
          (* a number has no [STATES]; line 57 reads its [PROVINCES], and
             line 61 calls it *)
          if eq_all (if falsy region then RList [] else region)
          then inl (AttributeError "PROVINCES")
          else inl TypeError_not_callable
      end
  end.

End get_holidays.

(** ** numpy and pandas helpers *)

(** [l[mask]]: the elements at the positions where the mask is true. *)
Fixpoint loc_mask {A} (mask : list bool) (l : list A) : list A :=
  match mask, l with
  | b :: mask', x :: l' => if b then x :: loc_mask mask' l' else loc_mask mask' l'
  | _, _ => []
  end.

(** [l[mask] = new]: the positions where the mask is true take the elements
    of [new] in order.  The callers give as many new elements as the mask has
    true positions (numpy raises otherwise); with fewer, the remaining
    positions keep their element. *)
Fixpoint set_mask {A} (mask : list bool) (l new : list A) {struct l}
  : list A :=
  match l with
  | [] => []
  | x :: l' =>
      match mask with
      | true :: mask' =>
          match new with
          | y :: new' => y :: set_mask mask' l' new'
          | [] => x :: set_mask mask' l' []
          end
      | _ :: mask' => x :: set_mask mask' l' new
      | [] => x :: l'
      end
  end.

Definition Qmaxb (a b : Q) : Q := if Qle_bool a b then b else a.
Definition Qminb (a b : Q) : Q := if Qle_bool a b then a else b.

(** [numpy.clip(x, lo, hi)] is [minimum(maximum(x, lo), hi)]. *)
Definition clip (x lo hi : Q) : Q := Qminb (Qmaxb x lo) hi.

(** [Series.max()] of a column without NaN; NaN on an empty column. *)
Definition column_max (l : list Q) : float :=
  match l with
  | [] => None
  | y :: l' => Some (fold_left Qmaxb l' y)
  end.

(** [numpy.max(testcounts)]: the maximum skips NaN. *)
Definition nanmax (l : list float) : float :=
  fold_left (fun acc v =>
               match acc, v with
               | None, _ => v
               | _, None => acc
               | Some a, Some b => Some (Qmaxb a b)
               end) l None.

(** [int(numpy.ceil(days / 30))] *)
Definition ceil_div (a b : Z) : Z := - ((- a) / b).

(** The label lookup of a series with unique labels. *)
Fixpoint lookup_label (d : Timestamp) (ser : list (Timestamp * Q)) : float :=
  match ser with
  | [] => None
  | (d', y) :: ser' => if decide (d' = d) then Some y else lookup_label d ser'
  end.

(** [ser.reindex(target).values]: nothing to do when the labels are the
    target already; otherwise each target label is looked up (NaN when it is
    absent), which pandas refuses on an index with duplicates. *)
Definition reindex (ser : list (Timestamp * Q)) (target : list Timestamp)
  : Exception + list float :=
  if decide (map fst ser = target) then inr (map (fun e => Some (snd e)) ser)
  else if decide (NoDup (map fst ser)) then
    inr (map (fun d => lookup_label d ser) target)
  else inl ValueError_duplicate_labels.

(** ** predict_testcounts *)

Inductive Call :=
| Call_get_holidays (country : string) (region : RegionSel) (years : gset Z)
| Call_Prophet (prophet_kwargs : gmap string KwValue)
| Call_fit (df : Frame)
| Call_predict (df : Frame)
| Call_predict_testcounts (region : string).

(** What [predict_testcounts] shares with its caller: the series object it
    was given, and the log of the calls to the external packages. *)
Record Caller := mkCaller { testcounts : Series; calls : list Call }.

Definition log (c : Call) : M.t Caller unit :=
  M.modify (fun st => mkCaller (testcounts st) (calls st ++ [c])).

Definition update_testcounts (f : Series -> Series) : M.t Caller unit :=
  M.modify (fun st => mkCaller (f (testcounts st)) (calls st)).

(** [testcounts.index[0]] *)
Definition index_first : M.t Caller Timestamp :=
  (st <- M.get ;;
   match index (testcounts st) with
   | [] => M.raise IndexError
   | d :: _ => M.ret d
   end)%py.

(** [testcounts.index[-1]] *)
Definition index_last : M.t Caller Timestamp :=
  (st <- M.get ;;
   match last (index (testcounts st)) with
   | None => M.raise IndexError
   | Some d => M.ret d
   end)%py.

(** Lines 138-144. *)
Definition mask_fit (ignore_before : Timestamp) (tc : Series) : list bool :=
  map (fun d => Timestamp_geb d ignore_before) (index tc).

Definition mask_predict (keep_data : bool) (ignore_before : Timestamp)
    (tc : Series) : list bool :=
  if keep_data then
    zip_with andb (map (fun d => Timestamp_geb d ignore_before) (index tc))
                  (map isnan (values tc))
  else map (fun d => Timestamp_geb d ignore_before) (index tc).

(** Lines 149 and 155: the two conditions on the region selector. *)
Definition national_or_one_region (region : RegionSel) : bool :=
  negb (eq_all region) && (length (atleast_1d region) <=? 1)%nat.

Definition several_regions (region : RegionSel) : bool :=
  eq_all region || (1 <? length (atleast_1d region))%nat.

(** Lines 184-196: the defaults, overridden by the caller's keywords. *)
Definition default_prophet_kwargs (holiday_df : list HolidayRow) (days : Z)
  : gmap string KwValue :=
  list_to_map
    [("growth", KwStr "logistic");
     ("seasonality_mode", KwStr "multiplicative");
     ("daily_seasonality", KwBool false);
     ("weekly_seasonality", KwBool true);
     ("yearly_seasonality", KwBool false);
     ("holidays", KwFrame holiday_df);
     ("mcmc_samples", KwInt 500);
     ("n_changepoints", KwInt (ceil_div days 30))].

(** [prophet_kwargs["growth"] == "logistic"] *)
Definition is_logistic (prophet_kwargs : gmap string KwValue) : bool :=
  match prophet_kwargs !! "growth" with
  | Some (KwStr s) => bool_decide (s = "logistic")
  | _ => false
  end.

Section predict_testcounts.
Context `{Packages}.

(** [ForecastingResult]: the completed series, the model, the forecast
    ([ds] and [yhat]) and the holidays used. *)
Record ForecastingResult := mkResult {
  result : Series;
  model : Prophet;
  forecast : list (Timestamp * Q);
  all_holidays : NamedDates
}.

Definition call_get_holidays (country : string) (region : RegionSel)
    (years : gset Z) : M.t Caller NamedDates :=
  (log (Call_get_holidays country region years) ;;
   M.lift (get_holidays country region years))%py.

(** Lines 155-180: the holidays used and the regressor frame. *)
Definition holiday_frame (country : string) (region : RegionSel)
    (regional_holidays : bool) (years : gset Z)
  : M.t Caller (NamedDates * list HolidayRow) :=
  (if several_regions region && regional_holidays then
     all_holidays <- call_get_holidays country region years ;;
     national_holidays <- call_get_holidays country RNone years ;;
     M.ret (all_holidays,
            map (fun '(date, name) =>
                   {| h_ds := date; h_name := name;
                      h_holiday :=
                        if bool_decide (date ∈ dom national_holidays)
                        then "national" else "regional" |})
                (map_to_list all_holidays))
   else
     all_holidays <- call_get_holidays country RNone years ;;
     M.ret (all_holidays,
            map (fun '(date, name) =>
                   {| h_ds := date; h_name := name; h_holiday := "holiday" |})
                (map_to_list all_holidays)))%py.

(** Line 224: [numpy.clip(forecast.set_index("ds").yhat, 0,
    forecast.yhat.max())], a series labelled by [ds]. *)
Definition clip_yhat (forecast : list (Timestamp * Q)) : list (Timestamp * Q) :=
  match column_max (map snd forecast) with
  | Some hi => map (fun '(ds, yhat) => (ds, clip yhat 0 hi)) forecast
  | None => []
  end.

(** Lines 219-225: the output series. *)
Definition reassemble (tc : Series) (mask_predict : list bool)
    (forecast : list (Timestamp * Q)) : Exception + Series :=
  match reindex (clip_yhat forecast) (loc_mask mask_predict (index tc)) with
  | inl e => inl e
  | inr new =>
      inr {| index_name := index_name tc;
             name := Some "testcount";
             entries := zip (index tc) (set_mask mask_predict (values tc) new) |}
  end.

Definition predict_testcounts (country : string) (region : RegionSel)
    (regional_holidays keep_data : bool) (ignore_before : option Timestamp)
    (kwargs : gmap string KwValue) : M.t Caller ForecastingResult :=
  (update_testcounts (fun s => mkSeries (Some "date") (name s) (entries s)) ;;
   update_testcounts (fun s => mkSeries (index_name s) (Some "total") (entries s)) ;;
   ignore_before <- match ignore_before with
                    | Some t => M.ret t
                    | None => index_first
                    end ;;
   (* for safety, sort the index *)
   update_testcounts
     (fun s => mkSeries (index_name s) (name s) (sort_index (entries s))) ;;
   tc <- (st <- M.get ;; M.ret (testcounts st)) ;;
   let mask_fit := mask_fit ignore_before tc in
   let mask_predict := mask_predict keep_data ignore_before tc in
   first <- index_first ;;
   last <- index_last ;;
   let years : gset Z := {[ year first; year last ]} in
   if national_or_one_region region && regional_holidays then
     M.raise ValueError_regional_holidays
   else
     hol <- holiday_frame country region regional_holidays years ;;
     let '(all_holidays, holiday_df) := hol in
     (* Config settings of forecast model *)
     let days := days_between last first in
     let prophet_kwargs := kwargs ∪ default_prophet_kwargs holiday_df days in
     log (Call_Prophet prophet_kwargs) ;;
     m <- M.lift (Prophet_init prophet_kwargs) ;;
     (* fit only the selected subset of the data *)
     let cap := (fun q => q * 1)%Q <$> nanmax (values tc) in
     let bounds := if is_logistic prophet_kwargs then Some (0, cap) else None in
     let df_fit := {| value_column := "y";
                      rows := loc_mask mask_fit (entries tc);
                      floor_cap := bounds |} in
     log (Call_fit df_fit) ;;
     m <- M.lift (Prophet_fit m df_fit) ;;
     (* predict for all dates in the input *)
     let df_predict := {| value_column := "total";
                          rows := entries tc;
                          floor_cap := bounds |} in
     log (Call_predict df_predict) ;;
     forecast <- M.lift (Prophet_predict m df_predict) ;;
     (* make a series of the result that has the same index as the input *)
     result <- M.lift (reassemble tc mask_predict forecast) ;;
     M.ret (mkResult result m forecast all_holidays))%py.

End predict_testcounts.

(** ** predict_testcounts_all_regions *)

(** A row of the frame the docstring describes: the index levels [region]
    and [date], and the column [new_tests]. *)
Record Row := { region : string; date : Timestamp; new_tests : float }.

Definition String_le (a b : string) : Prop := String.leb a b = true.

#[global] Instance String_le_dec : RelDecision String_le.
Proof. intros a b. unfold String_le. apply _. Defined.

(** The sorted distinct regions of rows: the labels of the region level of
    a frame that is built from these rows. *)
Definition sorted_regions (df : list Row) : list string :=
  merge_sort String_le (remove_dups (map region df)).

(** A frame: the labels of the region level ([df.index.levels[0]], which
    keeps the labels of rows that were filtered out), the rows, and the
    column [predicted_new_tests] when the frame has one already. *)
Record DataFrame := mkDataFrame {
  region_levels : list string;
  df_rows : list Row;
  df_predicted : option (list float)
}.

(** What pandas keeps true of a frame: the labels of a level are distinct,
    every row has a label of the level, and a column has one value for each
    row. *)
Definition well_formed (df : DataFrame) : Prop :=
  NoDup (region_levels df) /\
  Forall (fun row => region row ∈ region_levels df) (df_rows df) /\
  match df_predicted df with
  | Some column => length column = length (df_rows df)
  | None => True
  end.

(** A frame as it is built from rows: the level has the regions of the rows,
    and there is no column [predicted_new_tests]. *)
Definition frame_of (rows : list Row) : DataFrame :=
  mkDataFrame (sorted_regions rows) rows None.

(** The same frame with a column [predicted_new_tests]. *)
Definition with_predicted (df : DataFrame) (column : list float) : DataFrame :=
  mkDataFrame (region_levels df) (df_rows df) (Some column).

(** The rows of a region, as a mask over the frame. *)
Definition region_mask (r : string) (df : list Row) : list bool :=
  map (fun row => bool_decide (region row = r)) df.

(** [df.xs(region).new_tests] *)
Definition xs_new_tests (r : string) (df : list Row) : Series :=
  {| index_name := Some "date";
     name := Some "new_tests";
     entries := map (fun row => (date row, new_tests row))
                    (loc_mask (region_mask r df) df) |}.

(** [sum(~new_tests_nans)] *)
Definition n_train (r : string) (df : list Row) : Z :=
  Z.of_nat (length (filter (fun v => isnan v = false)
                      (values (xs_new_tests r df)))).

(** [**predict_testcounts_kwargs]: keywords of [predict_testcounts] and,
    for the rest, of [fbprophet.Prophet]. *)
Record Overrides := {
  o_keep_data : option bool;
  o_regional_holidays : option bool;
  o_ignore_before : option (option Timestamp);
  o_prophet : gmap string KwValue
}.

Section predict_testcounts_all_regions.
Context `{Packages}.

(** The locals of the loop: the copy of the frame has the rows of the input
    and the column [predicted_new_tests] if the input has it or once a
    region is forecast; the results; and the log of calls. *)
Record Batch := mkBatch {
  predicted_new_tests : option (list float);
  results : gmap string ForecastingResult;
  batch_calls : list Call
}.

(** Calls [predict_testcounts] on a series of its own. *)
Definition call_predict_testcounts (tc : Series) (country r : string)
    (regional_holidays keep_data : bool) (ignore_before : option Timestamp)
    (kwargs : gmap string KwValue) : M.t Batch ForecastingResult :=
  fun st =>
    let st0 := mkCaller tc (batch_calls st ++ [Call_predict_testcounts r]) in
    let '(st1, res) :=
      predict_testcounts country (RStr r) regional_holidays keep_data
        ignore_before kwargs st0 in
    (mkBatch (predicted_new_tests st) (results st) (calls st1), res).

(** Lines 254-280: the body of the loop for one region.  [df.xs(region)]
    raises for a label that no row has. *)
Definition forecast_region (df : DataFrame) (country_alpha2 : string)
    (o : Overrides) (r : string) : M.t Batch unit :=
  (let rows := df_rows df in
   if negb (bool_decide (r ∈ map region rows)) then M.raise (KeyError_xs r)
   else
   let tc := xs_new_tests r rows in
   let new_tests_nans := map isnan (values tc) in
   if 10 <? n_train r rows then
     first_observed <-
       match loc_mask (map negb new_tests_nans) (index tc) with
       | d :: _ => M.ret d
       | [] => M.raise IndexError
       end ;;
     let keep_data := default true (o_keep_data o) in
     let ignore_before :=
       default (Some (Timestamp_max (mkTimestamp 2020 3 15) first_observed))
               (o_ignore_before o) in
     let regional_holidays := default false (o_regional_holidays o) in
     let kwargs := o_prophet o ∪ {[ "growth" := KwStr "linear" ]} in
     res <- call_predict_testcounts tc country_alpha2 r regional_holidays
              keep_data ignore_before kwargs ;;
     M.modify (fun st => mkBatch (predicted_new_tests st)
                           (<[ r := res ]> (results st)) (batch_calls st)) ;;
     let result_series := result res in
     if decide (index result_series
                = map date (loc_mask (region_mask r rows) rows))
     then
       M.modify (fun st =>
         let column :=
           default (map (fun _ => None) rows) (predicted_new_tests st) in
         mkBatch (Some (set_mask (region_mask r rows) column
                          (values result_series)))
                 (results st) (batch_calls st))
     else M.raise AssertionError
   else
     (* only a warning is logged *)
     M.ret tt)%py.

Fixpoint forecast_regions (df : DataFrame) (country_alpha2 : string)
    (o : Overrides) (regions : list string) : M.t Batch unit :=
  match regions with
  | [] => M.ret tt
  | r :: regions' =>
      (forecast_region df country_alpha2 o r ;;
       forecast_regions df country_alpha2 o regions')%py
  end.

(** Lines 250-281.  [df.copy()] and [results = {}] are the locals the loop
    starts from: the copy has the column [predicted_new_tests] if the frame
    has.  The caller sees the log of calls and what is returned: the column
    [predicted_new_tests] of the copy and the results. *)
Definition predict_testcounts_all_regions (df : DataFrame)
    (country_alpha2 : string) (o : Overrides)
  : M.t (list Call) (list float * gmap string ForecastingResult) :=
  fun calls0 =>
    let '(st, r) :=
      (forecast_regions df country_alpha2 o (region_levels df) ;;
       st <- M.get ;;
       match predicted_new_tests st with
       | None => M.raise (KeyError_column "predicted_new_tests")
       | Some column => M.ret (column, results st)
       end)%py (mkBatch (df_predicted df) ∅ calls0) in
    (batch_calls st, r).

End predict_testcounts_all_regions.

(** ** A small instance of the packages, to run the functions on

    One country, [DE]/[DEU], with two provinces; a model that predicts the
    mean of the observations it was fitted on. *)

Module Demo.

Definition Germany : HolidayBase :=
  {| PROVINCES := ["BW"; "BY"];
     STATES := None;
     construct := fun years prov state =>
       set_fold (fun y (acc : NamedDates) =>
                   let acc := <[ mkTimestamp y 1 1 := "Neujahr" ]> acc in
                   if bool_decide (prov = Some "BY")
                   then <[ mkTimestamp y 8 15 := "Mariae Himmelfahrt" ]> acc
                   else acc) ∅ years |}.

Definition observed (rows : list (Timestamp * float)) : list Q :=
  omap snd rows.

Definition mean (l : list Q) : Q :=
  Qred (fold_right Qplus 0%Q l / inject_Z (Z.of_nat (length l))).

(** [sub in s] *)
Definition contains (sub s : string) : bool :=
  bool_decide (is_Some (String.index 0 sub s)).

(** The names of one date are joined unless one contains the other. *)
Definition stored_name (new old : string) : string :=
  if negb (contains new old) && negb (contains old new)
  then String.append new (String.append ", " old)
  else old.

#[global] Instance packages : Packages :=
  {| iso3166_alpha3 := fun c =>
       if bool_decide (c = "DE" \/ c = "DEU" \/ c = "Germany")
       then Some "DEU"
       else if bool_decide (c = "AQ") then Some "ATA"
       else if bool_decide (c = "MA" \/ c = "Morocco") then Some "MAR"
       else None;
     holidays_getattr := fun c =>
       if bool_decide (c = "DEU") then Some (CountryClass Germany)
       else if bool_decide (c = "MAR") then Some (Constant 3)
       else None;
     holidays_stored_name := stored_name;
     Prophet := option Frame;
     Prophet_init := fun _ => inr None;
     Prophet_fit := fun _ df => inr (Some df);
     Prophet_predict := fun m df =>
       match m with
       | Some history =>
           inr (map (fun '(ds, _) => (ds, mean (observed (rows history))))
                    (rows df))
       | None => inl (ProphetError "Model has not been fit.")
       end |}.

Definition no_overrides : Overrides :=
  {| o_keep_data := None; o_regional_holidays := None;
     o_ignore_before := None; o_prophet := ∅ |}.

Definition series (l : list (Timestamp * float)) : Caller :=
  mkCaller (mkSeries None None l) [].

Definition no_result : ForecastingResult :=
  mkResult (mkSeries None None []) None [] ∅.

Definition march (d : Z) : Timestamp := mkTimestamp 2020 3 d.

Definition sorted_series : list (Timestamp * float) :=
  [(march 1, Some 30%Q); (march 2, Some 10%Q); (march 3, None)].

Definition unsorted_series : list (Timestamp * float) :=
  [(march 2, Some 10%Q); (march 1, Some 30%Q); (march 3, None)].

(** Corrections of earlier reports show up as negative daily counts. *)
Definition negative_series : list (Timestamp * float) :=
  [(march 1, Some (-4)%Q); (march 2, Some (-2)%Q); (march 3, None)].

Definition three_years : list (Timestamp * float) :=
  [(mkTimestamp 2019 12 31, Some 1%Q); (mkTimestamp 2020 6 1, Some 2%Q);
   (mkTimestamp 2021 1 1, Some 3%Q)].

(** [BY] has 11 observations in 12 rows, [BW] has one in two rows. *)
Definition frame_rows : list Row :=
  map (fun d => {| region := "BY"; date := march d;
                   new_tests := if d =? 20 then None
                                else Some (inject_Z (10 * d)) |})
      [16; 17; 18; 19; 20; 21; 22; 23; 24; 25; 26; 27]
  ++ [ {| region := "BW"; date := march 16; new_tests := Some 5%Q |};
       {| region := "BW"; date := march 17; new_tests := None |} ].

Definition frame : DataFrame := frame_of frame_rows.

Definition small_rows : list Row :=
  [ {| region := "BW"; date := march 16; new_tests := Some 5%Q |};
    {| region := "BW"; date := march 17; new_tests := None |} ].

Definition small_frame : DataFrame := frame_of small_rows.

(** The rows of [frame_rows], and [HE] with 10 observations in 12 rows. *)
Definition gaps_rows : list Row :=
  frame_rows
  ++ map (fun d => {| region := "HE"; date := march d;
                      new_tests := if (d =? 18) || (d =? 22) then None
                                   else Some (inject_Z d) |})
         [16; 17; 18; 19; 20; 21; 22; 23; 24; 25; 26; 27].

Definition gaps_frame : DataFrame := frame_of gaps_rows.

(** Frames that have a column [predicted_new_tests] already. *)
Definition stale_frame : DataFrame :=
  with_predicted frame (map (fun _ => Some 7%Q) frame_rows).

Definition stale_small_frame : DataFrame :=
  with_predicted small_frame [Some 7%Q; Some 8%Q].

(** The rows of [BW], selected from a frame that had rows of [BY] too: the
    level keeps the label. *)
Definition sliced_frame : DataFrame :=
  mkDataFrame ["BW"; "BY"] small_rows None.

End Demo.

(** ** Notions the statements use *)

(** Outcomes of a computation: [wp m E Q s] holds when running [m] from [s]
    raises [e] in a state [s'] with [E s' e], or returns [a] in a state [s']
    with [Q s' a]. *)
Definition wp {S A} (m : M.t S A) (E : S -> Exception -> Prop)
    (Q : S -> A -> Prop) (s : S) : Prop :=
  match m s with
  | (s', inl e) => E s' e
  | (s', inr a) => Q s' a
  end.

(** Whether a call returned, and what it returned ([d] when it raised). *)
Definition returns {A} (r : Exception + A) : bool :=
  match r with inr _ => true | inl _ => false end.

Definition returned {A} (d : A) (r : Exception + A) : A :=
  match r with inr a => a | inl _ => d end.

(** The caller's series after lines 130-136. *)
Definition normalized (s : Series) : Series :=
  mkSeries (Some "date") (Some "total") (sort_index (entries s)).

(** The floor of lines 132-133: [ignore_before], or the first label of the
    series as it was passed. *)
Definition floor_of (ignore_before : option Timestamp) (s : Series)
  : option Timestamp :=
  match ignore_before with
  | Some t => Some t
  | None => head (index s)
  end.

(** An index in ascending order ([is_monotonic_increasing]). *)
Definition ascending (l : list Timestamp) : Prop :=
  Sorted (fun a b => Timestamp_leb a b = true) l.

(** The regions [predict_testcounts] was called for, and the years holidays
    were asked for, in the order of the log. *)
Definition imputed (cs : list Call) : list string :=
  omap (fun c => match c with
                 | Call_predict_testcounts r => Some r
                 | _ => None
                 end) cs.

Definition holiday_years (cs : list Call) : list (gset Z) :=
  omap (fun c => match c with
                 | Call_get_holidays _ _ years => Some years
                 | _ => None
                 end) cs.

Definition fit_frames (cs : list Call) : list Frame :=
  omap (fun c => match c with
                 | Call_fit df => Some df
                 | _ => None
                 end) cs.

(** Steps that leave the caller's series alone and call no imputer. *)
Definition quiet (st st' : Caller) : Prop :=
  testcounts st' = testcounts st /\ imputed (calls st') = imputed (calls st).

(** Following the words of the specification: the number of non-missing
    [new_tests] observations of a region, counted on the rows of the frame. *)
Definition non_missing_observations (r : string) (rows : list Row) : nat :=
  length (filter (fun row => region row = r /\ is_Some (new_tests row)) rows).

(** The column [predicted_new_tests] of the copy of line 250, read where the
    frame has no such column as the NaN an assignment to some of its rows
    leaves at the others. *)
Definition initial_column (df : DataFrame) : list float :=
  default (map (fun _ => None) (df_rows df)) (df_predicted df).

(** What holds of the locals of [predict_testcounts_all_regions] once the
    regions [done] are forecast: the results are those of [done]; the copy
    has no column [predicted_new_tests] only if the frame had none; and the
    column, when there is one, is as long as the frame and, at the rows of
    the other regions, as it was in the frame. *)
Definition inv `{Packages} (df : DataFrame) (done : list string) (st : Batch)
  : Prop :=
  dom (results st) = list_to_set done /\
  (predicted_new_tests st = None -> df_predicted df = None) /\
  forall column, predicted_new_tests st = Some column ->
    length column = length (df_rows df) /\
    forall i row, df_rows df !! i = Some row -> region row ∉ done ->
                  column !! i = initial_column df !! i.

(** The holidays lines 65-68 merge in for a region that passed the checks:
    those of the province when it is one, else those of the state. *)
Definition region_holidays (country_cls : HolidayBase) (years : gset Z)
    (region : option string) : NamedDates :=
  if bool_decide (region ∈ map Some (PROVINCES country_cls))
  then construct country_cls years region None
  else construct country_cls years None region.

(** A region the loop of lines 62-72 accepts. *)
Definition known_region (country_cls : HolidayBase) (region : option string)
  : Prop :=
  region ∈ map Some (PROVINCES country_cls) \/
  region ∈ map Some (default [] (STATES country_cls)).

(** The region selector the holidays are fetched for first (lines 155-173):
    the caller's when several regions and the regional distinction are asked
    for, else none. *)
Definition holiday_selector (region : RegionSel) (regional_holidays : bool)
  : RegionSel :=
  if several_regions region && regional_holidays then region else RNone.

(** The calls to [get_holidays] of a run that gets past them. *)
Definition holiday_calls (country : string) (region : RegionSel)
    (regional_holidays : bool) (years : gset Z) : list Call :=
  if several_regions region && regional_holidays
  then [Call_get_holidays country region years;
        Call_get_holidays country RNone years]
  else [Call_get_holidays country RNone years].

(** The frames of lines 200-216 for a sorted series [tc], a floor and the
    keywords of the model. *)
Definition bounds_of (prophet_kwargs : gmap string KwValue) (tc : Series)
  : option (Z * float) :=
  if is_logistic prophet_kwargs
  then Some (0, (fun q => q * 1)%Q <$> nanmax (values tc))
  else None.

Definition fit_frame (prophet_kwargs : gmap string KwValue)
    (ignore_before : Timestamp) (tc : Series) : Frame :=
  {| value_column := "y";
     rows := List.filter (fun e => Timestamp_geb e.1 ignore_before) (entries tc);
     floor_cap := bounds_of prophet_kwargs tc |}.

Definition predict_frame (prophet_kwargs : gmap string KwValue) (tc : Series)
  : Frame :=
  {| value_column := "total";
     rows := entries tc;
     floor_cap := bounds_of prophet_kwargs tc |}.

(** The regressor frame of lines 160-180 for the holidays [hs]: one row for
    each date, with its name; the class is ["holiday"] throughout, or, with
    the regional distinction, ["national"] for the dates of the national
    calendar and ["regional"] for the others. *)
Definition regressor_rows `{Packages} (country : string) (region : RegionSel)
    (regional_holidays : bool) (years : gset Z) (hs : NamedDates)
    (holiday_df : list HolidayRow) : Prop :=
  map (fun row => (h_ds row, h_name row)) holiday_df = map_to_list hs /\
  if several_regions region && regional_holidays then
    exists national,
      get_holidays country RNone years = inr national /\
      Forall (fun row =>
                h_holiday row = if bool_decide (h_ds row ∈ dom national)
                                then "national" else "regional") holiday_df
  else Forall (fun row => h_holiday row = "holiday") holiday_df.

(** The call the loop makes for a region, when it returned [res]
    (lines 262-273): on the series of the region, with the defaults
    [keep_data=True], [growth="linear"] and the floor
    [max(2020-03-15, first observed date)] under the caller's overrides. *)
Definition region_call `{Packages} (df : list Row) (country : string)
    (o : Overrides) (r : string) (res : ForecastingResult) : Prop :=
  let tc := xs_new_tests r df in
  exists first_observed cs cs',
    head (loc_mask (map negb (map isnan (values tc))) (index tc))
    = Some first_observed /\
    predict_testcounts country (RStr r)
      (default false (o_regional_holidays o))
      (default true (o_keep_data o))
      (default (Some (Timestamp_max (mkTimestamp 2020 3 15) first_observed))
               (o_ignore_before o))
      (o_prophet o ∪ {[ "growth" := KwStr "linear" ]})
      (mkCaller tc cs)
    = (cs', inr res).

(** What holds of the results of [predict_testcounts_all_regions] during
    the loop: each is what the call for its region returned, its index is
    that of the rows of the region, and the column has its values at these
    rows. *)
Definition inv_results `{Packages} (df : list Row) (country : string)
    (o : Overrides) (st : Batch) : Prop :=
  forall r res,
    results st !! r = Some res ->
    region_call df country o r res /\
    index (result res) = index (xs_new_tests r df) /\
    exists column,
      predicted_new_tests st = Some column /\
      loc_mask (region_mask r df) column = values (result res).

(** The position among the selected elements of the element at position [i]
    of a list under a mask. *)
Definition rank (mask : list bool) (i : nat) : nat :=
  length (List.filter id (take i mask)).

(** ** More inputs to run the functions on *)

Module Cases.

(** [BY] from March 10 to 21, with the value of March 12 missing. *)
Definition early_rows : list Row :=
  map (fun d => {| region := "BY"; date := Demo.march d;
                   new_tests := if d =? 12 then None
                                else Some (inject_Z (10 * d)) |})
      [10; 11; 12; 13; 14; 15; 16; 17; 18; 19; 20; 21].

Definition early_frame : DataFrame := frame_of early_rows.

Definition regional_overrides : Overrides :=
  {| o_keep_data := None; o_regional_holidays := Some true;
     o_ignore_before := None; o_prophet := ∅ |}.


End Cases.

(** * Properties *)

(** ** The monad *)

Section wp.
Context {S : Type}.
Implicit Types (s : S) (E : S -> Exception -> Prop).

Lemma wp_ret {A} (a : A) E (Q : S -> A -> Prop) s : Q s a -> wp (M.ret a) E Q s.
Proof. done. Qed.

Lemma wp_raise {A} e E (Q : S -> A -> Prop) s : E s e -> wp (M.raise e) E Q s.
Proof. done. Qed.

Lemma wp_get E (Q : S -> S -> Prop) s : Q s s -> wp M.get E Q s.
Proof. done. Qed.

Lemma wp_modify (f : S -> S) E (Q : S -> unit -> Prop) s :
  Q (f s) tt -> wp (M.modify f) E Q s.
Proof. done. Qed.

Lemma wp_lift {A} (r : Exception + A) E (Q : S -> A -> Prop) s :
  match r with inl e => E s e | inr a => Q s a end -> wp (M.lift r) E Q s.
Proof. unfold wp, M.lift. by destruct r. Qed.

Lemma wp_bind {A B} (m : M.t S A) (k : A -> M.t S B) E (Q : S -> B -> Prop) s :
  wp m E (fun s' a => wp (k a) E Q s') s -> wp (M.bind m k) E Q s.
Proof. unfold wp, M.bind. destruct (m s) as [s' [e|a]]; done. Qed.

Lemma wp_mono {A} (m : M.t S A) E E' (Q Q' : S -> A -> Prop) s :
  (forall s' e, E s' e -> E' s' e) -> (forall s' a, Q s' a -> Q' s' a) ->
  wp m E Q s -> wp m E' Q' s.
Proof. unfold wp. destruct (m s) as [s' [e|a]]; auto. Qed.

Lemma wp_run {A} (m : M.t S A) E (Q : S -> A -> Prop) s s' r :
  wp m E Q s -> m s = (s', r) ->
  match r with inl e => E s' e | inr a => Q s' a end.
Proof. unfold wp. intros Hwp Hm. rewrite Hm in Hwp. by destruct r. Qed.

End wp.

Lemma returns_returned_pair {A B} (d : A * B) (r : Exception + A * B) :
  returns r = true -> r = inr ((returned d r).1, (returned d r).2).
Proof. by destruct r as [e|[a b]]. Qed.

Lemma run_returned {S A} (d : A) (run : S * (Exception + A)) :
  returns run.2 = true -> run = (run.1, inr (returned d run.2)).
Proof. destruct run as [s [e|a]]; by simpl. Qed.

(** ** Timestamps and sorting *)

Lemma Timestamp_leb_total a b :
  Timestamp_leb a b = false -> Timestamp_leb b a = true.
Proof.
  unfold Timestamp_leb.
  repeat (case_match; try done); lia.
Qed.

Lemma Timestamp_leb_refl a : Timestamp_leb a a = true.
Proof. unfold Timestamp_leb. rewrite !Z.ltb_irrefl. lia. Qed.

Lemma insert_entry_Permutation e l : insert_entry e l ≡ₚ e :: l.
Proof.
  induction l as [|e' l IH]; simpl; [done|].
  case_match; [done|]. by rewrite IH, Permutation_swap.
Qed.

Lemma sort_index_Permutation l : sort_index l ≡ₚ l.
Proof.
  induction l as [|e l IH]; simpl; [done|].
  by rewrite insert_entry_Permutation, IH.
Qed.

Lemma sort_index_length l : length (sort_index l) = length l.
Proof. by rewrite sort_index_Permutation. Qed.

Lemma sort_index_nil l : sort_index l = [] -> l = [].
Proof.
  intros Hs. apply length_zero_iff_nil.
  by rewrite <- sort_index_length, Hs.
Qed.

Lemma insert_entry_ascending e l :
  ascending (map fst l) -> ascending (map fst (insert_entry e l)).
Proof.
  unfold ascending. induction l as [|e' l IH]; simpl; intros Hs.
  - repeat constructor.
  - destruct (Timestamp_leb e.1 e'.1) eqn:Hle; simpl.
    + constructor; [done|]. by constructor.
    + inversion Hs as [|? ? Hs' Hhd]; subst. constructor; [by apply IH|].
      destruct l as [|e'' l]; simpl.
      * constructor. by apply Timestamp_leb_total.
      * destruct (Timestamp_leb e.1 e''.1); simpl; constructor.
        -- by apply Timestamp_leb_total.
        -- by inversion Hhd.
Qed.

Lemma sort_index_ascending l : ascending (map fst (sort_index l)).
Proof.
  induction l as [|e l IH]; simpl; [constructor|].
  by apply insert_entry_ascending.
Qed.

(** Sorting a series whose index is ascending already changes nothing. *)
Lemma sort_index_id l : ascending (map fst l) -> sort_index l = l.
Proof.
  unfold ascending. induction l as [|e l IH]; simpl; [done|].
  intros Hs. inversion Hs as [|? ? Hs' Hhd]; subst.
  rewrite IH by done. destruct l as [|e' l]; simpl; [done|].
  inversion Hhd as [|? ? Hle]; subst. by rewrite Hle.
Qed.

(** ** Masks, clipping and reindexing *)

Lemma set_mask_length {A} mask (l new : list A) :
  length (set_mask mask l new) = length l.
Proof.
  revert mask new. induction l as [|x l IH]; intros mask new; simpl; [done|].
  destruct mask as [|[] mask]; simpl; [done| |].
  - destruct new; simpl; by rewrite IH.
  - by rewrite IH.
Qed.

(** Where the mask is not true the old element stays. *)
Lemma set_mask_lookup_false {A} mask (l new : list A) i :
  mask !! i ≠ Some true -> set_mask mask l new !! i = l !! i.
Proof.
  revert mask new i.
  induction l as [|x l IH]; intros mask new i Hm; simpl; [done|].
  destruct mask as [|b mask]; [done|].
  destruct i as [|i]; simpl in *.
  - destruct b; [done|done].
  - destruct b; [destruct new|]; simpl; by apply IH.
Qed.

(** Where the mask is true the element comes from the new ones, when there
    are as many of them as true positions. *)
Lemma set_mask_lookup_true {A B} mask (l new : list A) (l' : list B) i y :
  length l' = length l ->
  length new = length (loc_mask mask l') ->
  mask !! i = Some true ->
  set_mask mask l new !! i = Some y ->
  y ∈ new.
Proof.
  revert mask new l' i.
  induction l as [|x l IH]; intros mask new l' i Hl Hn Hm Hy; simpl in *;
    [done|].
  destruct l' as [|x' l']; [done|]. injection Hl as Hl.
  destruct mask as [|b mask]; [done|].
  destruct i as [|i]; simpl in *.
  - injection Hm as ->. destruct new as [|y' new]; [done|].
    simpl in Hy. injection Hy as ->. left.
  - destruct b; simpl in *.
    + destruct new as [|y' new]; [done|]. simpl in Hy.
      right. eapply IH; eauto.
    + eapply IH; eauto.
Qed.

Lemma lookup_label_elem_of d ser y :
  lookup_label d ser = Some y -> (d, y) ∈ ser.
Proof.
  induction ser as [|[d' y'] ser IH]; simpl; [done|].
  case_decide as Hd.
  - intros [= ->]. subst. left.
  - intros Hl. right. by apply IH.
Qed.

Lemma reindex_length ser target new :
  reindex ser target = inr new -> length new = length target.
Proof.
  unfold reindex. repeat case_decide; intros Hr; simplify_eq.
  - by rewrite !length_map.
  - by rewrite length_map.
Qed.

Lemma reindex_elem_of ser target new v :
  reindex ser target = inr new -> v ∈ new ->
  v = None \/ exists d y, (d, y) ∈ ser /\ v = Some y.
Proof.
  unfold reindex. repeat case_decide; intros Hr Hv; simplify_eq.
  - apply list_elem_of_fmap in Hv as [[d y] [-> He]]. right. eauto.
  - apply list_elem_of_fmap in Hv as [d [-> _]].
    destruct (lookup_label d ser) as [y|] eqn:Hl; [|by left].
    right. exists d, y. eauto using lookup_label_elem_of.
Qed.

Lemma clip_le_hi y lo hi : (clip y lo hi <= hi)%Q.
Proof.
  unfold clip, Qminb. destruct (Qle_bool _ hi) eqn:Hle.
  - by apply Qle_bool_iff.
  - apply Qle_refl.
Qed.

Lemma clip_ge_0 y hi : (0 <= hi)%Q -> (0 <= clip y 0 hi)%Q.
Proof.
  intros Hhi. unfold clip, Qminb, Qmaxb.
  destruct (Qle_bool y 0) eqn:Hy.
  - destruct (Qle_bool 0 hi); [apply Qle_refl | done].
  - assert (0 <= y)%Q.
    { apply Qlt_le_weak, Qnot_le_lt. intros Hle.
      apply Qle_bool_iff in Hle. congruence. }
    destruct (Qle_bool y hi); done.
Qed.

(** ** predict_testcounts *)

Section predict_testcounts_facts.
Context `{Packages}.

Lemma imputed_snoc cs c :
  (forall r, c ≠ Call_predict_testcounts r) -> imputed (cs ++ [c]) = imputed cs.
Proof.
  intros Hc. unfold imputed. rewrite omap_app. simpl.
  destruct c; rewrite ?app_nil_r; try done. by destruct (Hc region0).
Qed.

Lemma quiet_trans st1 st2 st3 : quiet st1 st2 -> quiet st2 st3 -> quiet st1 st3.
Proof. unfold quiet. intros [-> ->] [-> ->]. done. Qed.

Lemma wp_log c st :
  (forall r, c ≠ Call_predict_testcounts r) ->
  wp (log c) (fun st' _ => quiet st st') (fun st' _ => quiet st st') st.
Proof.
  intros Hc. apply wp_modify. split; simpl; [done|]. by apply imputed_snoc.
Qed.

Lemma wp_call_get_holidays country region years st :
  wp (call_get_holidays country region years)
     (fun st' _ => quiet st st') (fun st' _ => quiet st st') st.
Proof.
  unfold call_get_holidays. apply wp_bind.
  eapply wp_mono; [| |by apply wp_log]; simpl; [done|].
  intros st' _ Hq. apply wp_lift. by destruct get_holidays.
Qed.

Lemma wp_holiday_frame country region rh years st :
  wp (holiday_frame country region rh years)
     (fun st' _ => quiet st st') (fun st' _ => quiet st st') st.
Proof.
  unfold holiday_frame. destruct (several_regions region && rh).
  - apply wp_bind.
    eapply wp_mono; [| |apply wp_call_get_holidays]; simpl; [done|].
    intros st1 hs Hq1. apply wp_bind.
    eapply wp_mono; [| |apply wp_call_get_holidays]; simpl.
    + eauto using quiet_trans.
    + intros st2 hs' Hq2. apply wp_ret. eauto using quiet_trans.
  - apply wp_bind.
    eapply wp_mono; [| |apply wp_call_get_holidays]; simpl; [done|].
    intros st1 hs Hq1. by apply wp_ret.
Qed.

Ltac quiet_step lem :=
  apply wp_bind; eapply wp_mono; [| |by apply lem]; cbv beta;
  [ intros ? ? ?; eauto using quiet_trans
  | intros ? ? ?;
    match goal with
    | Ha : quiet ?a ?b, Hb : quiet ?b ?c |- _ =>
        pose proof (quiet_trans _ _ _ Ha Hb); clear Ha Hb
    end ].

Ltac lift_step :=
  apply wp_bind, wp_lift;
  match goal with
  | |- match ?r with _ => _ end => destruct r eqn:?; [done|]
  end.

Lemma predict_testcounts_spec country region rh kd ib kwargs st :
  wp (predict_testcounts country region rh kd ib kwargs)
    (fun st' _ => quiet (mkCaller (normalized (testcounts st)) (calls st)) st')
    (fun st' r =>
       quiet (mkCaller (normalized (testcounts st)) (calls st)) st' /\
       exists floor,
         floor_of ib (testcounts st) = Some floor /\
         reassemble (normalized (testcounts st))
           (mask_predict kd floor (normalized (testcounts st))) (forecast r)
         = inr (result r))
    st.
Proof.
  destruct st as [[iname nm es] cs]. unfold predict_testcounts.
  apply wp_bind, wp_modify. apply wp_bind, wp_modify. simpl.
  apply wp_bind.
  assert (Hfloor : wp (match ib with Some t => M.ret t | None => index_first end)
            (fun st' _ => st' = mkCaller (mkSeries (Some "date") (Some "total") es) cs /\ es = [])
            (fun st' fl => st' = mkCaller (mkSeries (Some "date") (Some "total") es) cs /\
               floor_of ib (mkSeries iname nm es) = Some fl)
            (mkCaller (mkSeries (Some "date") (Some "total") es) cs)).
  { destruct ib as [t|]; [by apply wp_ret|].
    unfold index_first. apply wp_bind, wp_get. simpl.
    destruct es as [|[d v] es]; simpl; [by apply wp_raise | by apply wp_ret]. }
  eapply wp_mono; [| |exact Hfloor]; simpl.
  { intros st' e [-> ->]. done. }
  intros st' fl [-> Hfl]. clear Hfloor.
  apply wp_bind, wp_modify. simpl.
  apply wp_bind, wp_bind, wp_get, wp_ret. simpl.
  change (mkSeries (Some "date") (Some "total") (sort_index es))
    with (normalized (mkSeries iname nm es)).
  remember (normalized (mkSeries iname nm es)) as N eqn:HN.
  remember (mkCaller N cs) as s0 eqn:Hs0.
  assert (Hq0 : quiet s0 s0) by done.
  assert (HN0 : testcounts s0 = N) by by subst s0.
  unfold index_first, index_last.
  apply wp_bind, wp_bind, wp_get. cbv beta. rewrite HN0.
  destruct (index N) as [|first idx] eqn:Hidx;
    [by apply wp_raise|apply wp_ret].
  apply wp_bind, wp_bind, wp_get. cbv beta. rewrite HN0, Hidx.
  destruct (last (first :: idx)) as [lst|]; [apply wp_ret|by apply wp_raise].
  destruct (national_or_one_region region && rh); [by apply wp_raise|].
  quiet_step wp_holiday_frame.
  destruct a as [hs hdf].
  quiet_step wp_log.
  lift_step.
  quiet_step wp_log.
  lift_step.
  quiet_step wp_log.
  lift_step.
  lift_step.
  apply wp_ret. split; [done|]. by exists fl.
Qed.

(** What a run that returns tells about the caller's series and the result. *)
Lemma predict_testcounts_returns country region rh kd ib kwargs st st' r :
  predict_testcounts country region rh kd ib kwargs st = (st', inr r) ->
  testcounts st' = normalized (testcounts st) /\
  exists floor,
    floor_of ib (testcounts st) = Some floor /\
    reassemble (normalized (testcounts st))
      (mask_predict kd floor (normalized (testcounts st))) (forecast r)
    = inr (result r).
Proof.
  intros Hrun.
  pose proof (wp_run _ _ _ _ _ _
                (predict_testcounts_spec country region rh kd ib kwargs st)
                Hrun) as [[Htc _] Hres].
  done.
Qed.

Lemma lookup_map {A B} (f : A -> B) (l : list A) i :
  map f l !! i = f <$> l !! i.
Proof. exact (list_lookup_fmap f l i). Qed.

Lemma reassemble_inv tc mask fc s :
  reassemble tc mask fc = inr s ->
  exists new,
    reindex (clip_yhat fc) (loc_mask mask (index tc)) = inr new /\
    index_name s = index_name tc /\
    name s = Some "testcount" /\
    entries s = zip (index tc) (set_mask mask (values tc) new).
Proof.
  unfold reassemble. destruct reindex as [e|new]; [done|].
  intros [= <-]. by exists new.
Qed.

Lemma reassemble_index tc mask fc s :
  reassemble tc mask fc = inr s -> index s = index tc.
Proof.
  intros (new & _ & _ & _ & Hs)%reassemble_inv. unfold index. rewrite Hs.
  apply (fst_zip (index tc)).
  unfold index, values. by rewrite set_mask_length, !length_map.
Qed.

(** An entry of the output is the input entry at that position, with the
    value the mask assignment left or put there. *)
Lemma reassemble_lookup tc mask fc s i d v :
  reassemble tc mask fc = inr s ->
  entries s !! i = Some (d, v) ->
  exists new v0,
    reindex (clip_yhat fc) (loc_mask mask (index tc)) = inr new /\
    entries tc !! i = Some (d, v0) /\
    set_mask mask (values tc) new !! i = Some v.
Proof.
  intros (new & Hnew & _ & _ & Hs)%reassemble_inv. rewrite Hs.
  intros Hi. apply lookup_zip_with_Some in Hi as (d' & v' & [= <- <-] & Hd & Hv).
  unfold index in Hd. rewrite lookup_map in Hd.
  destruct (entries tc !! i) as [[d0 v0]|] eqn:He; [|done].
  injection Hd as <-. by exists new, v0.
Qed.

Lemma clip_yhat_elem_of fc d y :
  (d, y) ∈ clip_yhat fc ->
  exists hi, column_max (map snd fc) = Some hi /\
             (y <= hi)%Q /\ ((0 <= hi)%Q -> (0 <= y)%Q).
Proof.
  unfold clip_yhat. destruct (column_max (map snd fc)) as [hi|]; [|by inversion 1].
  intros ([d' y'] & [= -> ->] & _)%list_elem_of_fmap.
  exists hi. eauto using clip_le_hi, clip_ge_0.
Qed.

Lemma mask_predict_keep fl tc i d q :
  entries tc !! i = Some (d, Some q) ->
  mask_predict true fl tc !! i ≠ Some true.
Proof.
  intros He. unfold mask_predict. rewrite lookup_zip_with.
  unfold index, values. rewrite !lookup_map, He. simpl.
  by rewrite andb_false_r.
Qed.

End predict_testcounts_facts.

(** ** The output series of predict_testcounts *)

Section predict_testcounts_claims.
Context `{Packages}.

(** C1.  With [keep_data=True], a call that returns keeps every observed
    (non-NaN) input value unchanged at its date: the output has it at the
    position the entry takes in the sorted series, and hence every observed
    entry of the input is an entry of the output. *)
Theorem keep_data_preserves_observed country region rh ib kwargs st st' r :
  predict_testcounts country region rh true ib kwargs st = (st', inr r) ->
  (forall i d q,
      sort_index (entries (testcounts st)) !! i = Some (d, Some q) ->
      entries (result r) !! i = Some (d, Some q)) /\
  (forall d q,
      (d, Some q) ∈ entries (testcounts st) ->
      (d, Some q) ∈ entries (result r)).
Proof.
  intros (_ & fl & _ & Hres)%predict_testcounts_returns.
  assert (Hpos : forall i d q,
             sort_index (entries (testcounts st)) !! i = Some (d, Some q) ->
             entries (result r) !! i = Some (d, Some q)).
  { intros i d q Hi.
    apply reassemble_inv in Hres as (new & _ & _ & _ & ->).
    apply lookup_zip_with_Some. exists d, (Some q). split; [done|].
    split.
    - unfold index. rewrite lookup_map. simpl. by rewrite Hi.
    - rewrite set_mask_lookup_false by by eapply mask_predict_keep.
      unfold values. rewrite lookup_map. simpl. by rewrite Hi. }
  split; [done|].
  intros d q Hin. rewrite <- (sort_index_Permutation _) in Hin.
  apply list_elem_of_lookup in Hin as [i Hi].
  apply list_elem_of_lookup. exists i. by apply Hpos.
Qed.

(** C2, amended.  In a call that returns, the value at a position of the
    predict mask is NaN or a number that is at most the maximum point
    estimate [yhat] of the call, and at least 0 when that maximum is at
    least 0; at every other position the output has the input value,
    whatever it is. *)
Theorem predicted_values_clipped country region rh kd ib kwargs st st' r :
  predict_testcounts country region rh kd ib kwargs st = (st', inr r) ->
  exists floor,
    floor_of ib (testcounts st) = Some floor /\
    forall i d v,
      entries (result r) !! i = Some (d, v) ->
      exists v0,
        sort_index (entries (testcounts st)) !! i = Some (d, v0) /\
        match mask_predict kd floor (normalized (testcounts st)) !! i with
        | Some true =>
            forall q, v = Some q ->
              exists hi, column_max (map snd (forecast r)) = Some hi /\
                         (q <= hi)%Q /\ ((0 <= hi)%Q -> (0 <= q)%Q)
        | _ => v = v0
        end.
Proof.
  intros (_ & fl & Hfl & Hres)%predict_testcounts_returns.
  exists fl. split; [done|]. intros i d v Hi.
  destruct (reassemble_lookup _ _ _ _ _ _ _ Hres Hi)
    as (new & v0 & Hnew & He & Hv).
  exists v0. split; [done|].
  destruct (mask_predict kd fl _ !! i) as [[]|] eqn:Hm.
  - intros q ->.
    eapply (set_mask_lookup_true _ _ _ (index (normalized (testcounts st))))
      in Hv; [| |by eapply reindex_length|done].
    + destruct (reindex_elem_of _ _ _ _ Hnew Hv) as [|(d' & y & Hy & [= ->])];
        [done|].
      by eapply clip_yhat_elem_of.
    + unfold index, values. by rewrite !length_map.
  - rewrite set_mask_lookup_false in Hv by congruence.
    unfold values in Hv. rewrite lookup_map, He in Hv. by injection Hv.
  - rewrite set_mask_lookup_false in Hv by congruence.
    unfold values in Hv. rewrite lookup_map, He in Hv. by injection Hv.
Qed.

(** C3, amended.  In a call that returns, the index of the output is the
    index of the input series after the in-place sort: the dates of the
    input in ascending order, which is also the index the caller's series
    has after the call.  It is the index as passed when that was ascending
    already. *)
Theorem result_index_sorted country region rh kd ib kwargs st st' r :
  predict_testcounts country region rh kd ib kwargs st = (st', inr r) ->
  index (result r) = map fst (sort_index (entries (testcounts st))) /\
  index (result r) = index (testcounts st') /\
  index (result r) ≡ₚ index (testcounts st) /\
  ascending (index (result r)) /\
  (ascending (index (testcounts st)) ->
   index (result r) = index (testcounts st)).
Proof.
  intros (Hst' & fl & _ & Hres)%predict_testcounts_returns.
  apply reassemble_index in Hres. rewrite Hres, Hst'. unfold index. simpl.
  repeat split.
  - apply (fmap_Permutation fst), sort_index_Permutation.
  - apply sort_index_ascending.
  - intros Hasc. by rewrite sort_index_id.
Qed.

(** C9.  Every call leaves the caller's series renamed and sorted: its
    index is named [date], the series is named [total], and its entries are
    in ascending order of date, whatever the outcome of the call; so it is
    when the call raises the error of line 150. *)
Theorem input_series_mutated country region rh kd ib kwargs st :
  let run := predict_testcounts country region rh kd ib kwargs st in
  (index_name (testcounts run.1) = Some "date" /\
   name (testcounts run.1) = Some "total" /\
   entries (testcounts run.1) = sort_index (entries (testcounts st))) /\
  (run.2 = inl ValueError_regional_holidays ->
   testcounts run.1 = normalized (testcounts st)).
Proof.
  intros run.
  assert (Htc : testcounts run.1 = normalized (testcounts st)).
  { pose proof (predict_testcounts_spec country region rh kd ib kwargs st)
      as Hwp.
    unfold wp in Hwp. subst run.
    destruct (predict_testcounts _ _ _ _ _ _ st) as [st' [e|r]]; simpl.
    - by destruct Hwp.
    - by destruct Hwp as [[? _] _]. }
  by rewrite Htc.
Qed.

(** C6, amended.  On a series that is not empty, [regional_holidays=True]
    with a region selector that is not ["all"] and has at most one element
    ([None], an empty list, one code, a one-element list) raises the error
    of line 150, with the series renamed and sorted and before any call to
    the holidays package or to the model. *)
Theorem regional_holidays_one_region country region kd ib kwargs st :
  entries (testcounts st) ≠ [] ->
  eq_all region = false ->
  (length (atleast_1d region) <= 1)%nat ->
  predict_testcounts country region true kd ib kwargs st
  = (mkCaller (normalized (testcounts st)) (calls st),
     inl ValueError_regional_holidays).
Proof.
  destruct st as [[iname nm es] cs]. simpl. intros Hes Hall Hlen.
  assert (Hone : national_or_one_region region && true = true).
  { unfold national_or_one_region. rewrite Hall. simpl.
    rewrite andb_true_r. by apply Nat.leb_le. }
  destruct (sort_index es) as [|e ses] eqn:Hs.
  { by apply sort_index_nil in Hs. }
  destruct es as [|e0 es]; [done|].
  assert (Hlast : is_Some (last (e.1 :: map fst ses))) by by apply last_is_Some.
  destruct Hlast as [lst Hlast].
  unfold predict_testcounts, update_testcounts, index_first, index_last,
    M.bind, M.modify, M.get, M.ret, M.raise, normalized, index.
  destruct ib as [t|]; cbn -[sort_index last]; rewrite Hs;
    cbn -[sort_index last]; rewrite Hlast, Hone; done.
Qed.

End predict_testcounts_claims.

(** ** get_holidays *)

Section get_holidays_claims.
Context `{Packages}.

(** The loop stops at the first region that is neither a province nor a
    state. *)
Lemma add_regions_unknown country cls years regions result code :
  code ∈ regions ->
  (code ∉ map Some (PROVINCES cls)) ->
  (code ∉ map Some (default [] (STATES cls))) ->
  exists bad,
    bad ∈ regions /\
    (bad ∉ map Some (PROVINCES cls)) /\
    (bad ∉ map Some (default [] (STATES cls))) /\
    add_regions country cls years regions result
    = inl (KeyError_region (region_repr bad) country).
Proof.
  intros Hin Hp Hs. revert result.
  induction regions as [|r regions IH]; intros result; [by inversion Hin|].
  simpl. case_bool_decide as Hrp.
  - assert (code ∈ regions) as Hin'.
    { apply elem_of_cons in Hin as [->|]; done. }
    destruct (IH Hin' (HolidayBase_update (construct cls years r None) result))
      as (bad & ? & ? & ? & ->).
    exists bad. repeat split; try done. by right.
  - destruct (STATES cls) as [states|] eqn:Hst; simpl in *.
    + case_bool_decide as Hrs.
      * assert (code ∈ regions) as Hin'.
        { apply elem_of_cons in Hin as [->|]; done. }
        destruct (IH Hin'
                    (HolidayBase_update (construct cls years None r) result))
          as (bad & ? & ? & ? & ->).
        exists bad. repeat split; try done. by right.
      * exists r. repeat split; try done. by left.
    + exists r. repeat split; try done; [by left|by inversion 1].
Qed.

End get_holidays_claims.

(** ** predict_testcounts_all_regions *)

Section all_regions_claims.
Context `{Packages}.

Lemma elem_of_sorted_regions df r : r ∈ sorted_regions df <-> r ∈ map region df.
Proof.
  unfold sorted_regions. by rewrite merge_sort_Permutation, elem_of_remove_dups.
Qed.

Lemma NoDup_sorted_regions df : NoDup (sorted_regions df).
Proof.
  unfold sorted_regions. rewrite merge_sort_Permutation. apply NoDup_remove_dups.
Qed.

Lemma well_formed_frame_of rows : well_formed (frame_of rows).
Proof.
  split_and!; simpl; [apply NoDup_sorted_regions| |done].
  apply Forall_forall. intros row Hrow. apply elem_of_sorted_regions.
  apply list_elem_of_fmap. eauto.
Qed.

Lemma well_formed_with_predicted df column :
  well_formed df -> length column = length (df_rows df) ->
  well_formed (with_predicted df column).
Proof. intros (Hnd & Hrows & _) Hlen. by split_and!. Qed.

(** The count of line 255 is the number of non-missing observations of the
    region. *)
Lemma n_train_non_missing r rows :
  n_train r rows = Z.of_nat (non_missing_observations r rows).
Proof.
  unfold n_train, non_missing_observations, values, xs_new_tests, region_mask.
  cbn [entries]. f_equal.
  induction rows as [|row rows IH]; [done|].
  cbn [map loc_mask].
  destruct (decide (region row = r)) as [Hr|Hr].
  - rewrite bool_decide_eq_true_2 by done. cbn [map loc_mask snd].
    destruct (new_tests row) as [q|] eqn:Hq.
    + rewrite filter_cons_True by done.
      rewrite (filter_cons_True (fun row => _ /\ _)) by (by rewrite Hq).
      simpl. by rewrite IH.
    + rewrite filter_cons_False by done.
      rewrite (filter_cons_False (fun row => _ /\ _)); [done|].
      rewrite Hq. by intros [_ [? ?]].
  - rewrite bool_decide_eq_false_2 by done.
    rewrite (filter_cons_False (fun row => _ /\ _)); [done|]. by intros [? _].
Qed.

Lemma non_missing_elem_of r rows :
  (0 < non_missing_observations r rows)%nat -> r ∈ map region rows.
Proof.
  unfold non_missing_observations. intros Hpos.
  destruct (filter _ rows) as [|row l] eqn:Hf; [simpl in Hpos; lia|].
  assert (Hin : row ∈ filter (fun row => region row = r /\ is_Some (new_tests row))
                  rows) by (rewrite Hf; left).
  apply list_elem_of_filter in Hin as [[<- _] Hrow].
  apply list_elem_of_fmap. eauto.
Qed.

Lemma n_train_elem_of r rows : 0 < n_train r rows -> r ∈ map region rows.
Proof. rewrite n_train_non_missing. intros Hn. apply non_missing_elem_of. lia. Qed.

Lemma wp_call_predict_testcounts tc country r rh kd ib kwargs st :
  let post := fun st' =>
    predicted_new_tests st' = predicted_new_tests st /\
    results st' = results st /\
    imputed (batch_calls st') = (imputed (batch_calls st) ++ [r])%list in
  wp (call_predict_testcounts tc country r rh kd ib kwargs)
     (fun st' _ => post st') (fun st' _ => post st') st.
Proof.
  intros post. unfold wp, call_predict_testcounts.
  pose proof (predict_testcounts_spec country (RStr r) rh kd ib kwargs
                (mkCaller tc (batch_calls st ++ [Call_predict_testcounts r])))
    as Hwp.
  unfold wp in Hwp.
  assert (Hsnoc : imputed (batch_calls st ++ [Call_predict_testcounts r])
                  = (imputed (batch_calls st) ++ [r])%list).
  { unfold imputed. by rewrite omap_app. }
  destruct (predict_testcounts _ _ _ _ _ _ _) as [st1 [e|res]]; subst post;
    cbn [predicted_new_tests results batch_calls].
  - destruct Hwp as [_ Hc]. simpl in Hc. by rewrite Hc, Hsnoc.
  - destruct Hwp as [[_ Hc] _]. simpl in Hc. by rewrite Hc, Hsnoc.
Qed.

Lemma region_mask_lookup r df i row :
  df !! i = Some row ->
  region_mask r df !! i = Some (bool_decide (region row = r)).
Proof. intros Hi. unfold region_mask. by rewrite lookup_map, Hi. Qed.

Lemma inv_fresh df cs :
  well_formed df -> inv df [] (mkBatch (df_predicted df) ∅ cs).
Proof.
  intros (_ & _ & Hlen). split_and!; simpl; [set_solver|done|].
  intros column Hcol. unfold initial_column. rewrite Hcol in *. by split.
Qed.

(** Assigning the column at the rows of [r] keeps it as it was at the rows of
    the regions not forecast. *)
Lemma inv_assign df S st r res vals cs :
  inv df S st ->
  inv df (S ++ [r])
    (mkBatch (Some (set_mask (region_mask r (df_rows df))
                      (default (map (fun _ => None) (df_rows df))
                               (predicted_new_tests st))
                      vals))
             (<[ r := res ]> (results st)) cs).
Proof.
  intros (Hdom & Hnone & Hcol). split_and!; simpl; [|done|].
  - rewrite dom_insert_L, Hdom, list_to_set_app_L. simpl.
    rewrite (right_id_L ∅ (∪)). apply (comm_L (∪)).
  - intros column [= <-]. rewrite set_mask_length.
    assert (Hold : length (default (map (fun _ => None) (df_rows df))
                             (predicted_new_tests st)) = length (df_rows df) /\
                   forall i row, df_rows df !! i = Some row -> region row ∉ S ->
                     default (map (fun _ => None) (df_rows df))
                             (predicted_new_tests st) !! i
                     = initial_column df !! i).
    { destruct (predicted_new_tests st) as [old|]; simpl; [by apply Hcol|].
      split; [by rewrite length_map|].
      intros i row Hi _. unfold initial_column. by rewrite Hnone. }
    destruct Hold as [Hlen Hnan]. split; [done|].
    intros i row Hi Hnot. apply not_elem_of_app in Hnot as [HS Hr].
    rewrite set_mask_lookup_false; [by eapply Hnan|].
    rewrite (region_mask_lookup _ _ _ _ Hi).
    rewrite bool_decide_eq_false_2; [done|].
    intros Heq. apply Hr. rewrite Heq. left.
Qed.

Lemma wp_forecast_region df country o r base S st :
  inv df S st ->
  imputed (batch_calls st) = (base ++ S)%list ->
  wp (forecast_region df country o r)
    (fun st' _ =>
       imputed (batch_calls st') = (base ++ S)%list \/
       (10 < n_train r (df_rows df) /\
        imputed (batch_calls st') = (base ++ S ++ [r])%list))
    (fun st' _ =>
       r ∈ map region (df_rows df) /\
       if decide (10 < n_train r (df_rows df))
       then imputed (batch_calls st') = (base ++ S ++ [r])%list /\
            inv df (S ++ [r]) st'
       else st' = st)
    st.
Proof.
  intros Hinv Hbase. unfold forecast_region.
  case_bool_decide as Hrows; cbn [negb].
  2:{ apply wp_raise. by left. }
  destruct (10 <? n_train r (df_rows df)) eqn:Hn.
  - apply Z.ltb_lt in Hn.
    destruct (decide (10 < n_train r (df_rows df))); [|lia].
    apply wp_bind. destruct (loc_mask _ _) as [|d0 ds].
    { apply wp_raise. by left. }
    apply wp_ret, wp_bind.
    eapply wp_mono; [| |apply wp_call_predict_testcounts]; cbv beta.
    + intros st' _ (_ & _ & Hi). right. split; [done|].
      by rewrite Hi, Hbase, <- app_assoc.
    + intros st1 res (Hp & Hr & Hi).
      assert (Hi' : imputed (batch_calls st1) = (base ++ S ++ [r])%list).
      { by rewrite Hi, Hbase, <- app_assoc. }
      apply wp_bind, wp_modify. case_decide.
      * apply wp_modify. cbn [predicted_new_tests results batch_calls].
        split; [done|]. split; [done|]. rewrite Hp, Hr. by apply inv_assign.
      * apply wp_raise. by right.
  - apply Z.ltb_ge in Hn.
    destruct (decide (10 < n_train r (df_rows df))); [lia|].
    by apply wp_ret.
Qed.

Lemma wp_forecast_regions df country o regions base S st :
  inv df S st ->
  imputed (batch_calls st) = (base ++ S)%list ->
  wp (forecast_regions df country o regions)
    (fun st' _ =>
       exists S',
         imputed (batch_calls st') = (base ++ S ++ S')%list /\
         S' `prefix_of` filter (fun r => 10 < n_train r (df_rows df)) regions)
    (fun st' _ =>
       let S' := filter (fun r => 10 < n_train r (df_rows df)) regions in
       imputed (batch_calls st') = (base ++ S ++ S')%list /\
       inv df (S ++ S') st' /\
       Forall (fun r => r ∈ map region (df_rows df)) regions)
    st.
Proof.
  revert S st. induction regions as [|r regions IH]; intros S st Hinv Hbase.
  { apply wp_ret. simpl. by rewrite app_nil_r. }
  simpl. apply wp_bind.
  eapply wp_mono; [| |by apply wp_forecast_region]; cbv beta.
  - intros st' _ [Hi|[Hn Hi]].
    + exists []. rewrite app_nil_r. split; [done|apply prefix_nil].
    + rewrite filter_cons_True by done.
      exists [r]. split; [done|]. apply prefix_cons, prefix_nil.
  - intros st' _ [Hrows Hpost]. case_decide as Hn.
    + destruct Hpost as [Hi Hinv']. rewrite filter_cons_True by done.
      eapply wp_mono; [| |apply (IH (S ++ [r])%list st' Hinv')]; cbv beta.
      * intros st'' _ (S' & Hi' & Hpre). exists (r :: S').
        rewrite Hi', <- app_assoc. split; [done|]. by apply prefix_cons.
      * intros st'' _ (Hi' & Hinv'' & Hall).
        rewrite <- app_assoc in Hi', Hinv''. by split_and!; [..|constructor].
      * done.
    + subst st'. rewrite filter_cons_False by done.
      eapply wp_mono; [| |by apply IH]; cbv beta; [done|].
      intros st'' _ (Hi' & Hinv'' & Hall). by split_and!; [..|constructor].
Qed.

(** A region with rows and without enough observations is passed over. *)
Lemma forecast_regions_skip df country o regions st :
  Forall (fun r => r ∈ map region (df_rows df) /\
                   n_train r (df_rows df) <= 10) regions ->
  forecast_regions df country o regions st = (st, inr tt).
Proof.
  induction 1 as [|r regions [Hrows Hr] _ IH]; [done|].
  simpl. unfold M.bind, forecast_region.
  rewrite bool_decide_eq_true_2 by done. cbn [negb].
  assert ((10 <? n_train r (df_rows df)) = false) as -> by by apply Z.ltb_ge.
  simpl. apply IH.
Qed.

(** C7.  On a well-formed frame, the imputer is called for regions with more
    than 10 non-missing observations only, in the order of the region level.
    A call that returns has called it for all of them; its results have an
    entry exactly for the regions with more than 10 non-missing
    observations; and for a region with at most 10 the results have no
    entry and the returned column has, at each row of the region, the value
    the frame's own column [predicted_new_tests] had there, and NaN if the
    frame had no such column. *)
Theorem only_regions_with_enough_data country o df calls0 :
  well_formed df ->
  let rows := df_rows df in
  let run := predict_testcounts_all_regions df country o calls0 in
  let enough :=
    filter (fun r => (10 < non_missing_observations r rows)%nat)
           (region_levels df) in
  (exists S, imputed run.1 = (imputed calls0 ++ S)%list /\
             S `prefix_of` enough) /\
  (forall column results,
      run.2 = inr (column, results) ->
      imputed run.1 = (imputed calls0 ++ enough)%list /\
      (forall r, is_Some (results !! r) <->
                 (10 < non_missing_observations r rows)%nat) /\
      (forall r, (non_missing_observations r rows <= 10)%nat ->
                 results !! r = None /\
                 forall i row, rows !! i = Some row -> region row = r ->
                   column !! i = match df_predicted df with
                                 | Some old => old !! i
                                 | None => Some None
                                 end)).
Proof.
  intros Hwf rows run enough.
  assert (Henough : enough
                    = filter (fun r => 10 < n_train r rows) (region_levels df)).
  { subst enough. apply list_filter_iff. intros r.
    rewrite n_train_non_missing. lia. }
  pose proof (wp_forecast_regions df country o (region_levels df)
                (imputed calls0) [] (mkBatch (df_predicted df) ∅ calls0)
                (inv_fresh df calls0 Hwf)) as Hwp.
  rewrite app_nil_r in Hwp. specialize (Hwp eq_refl).
  destruct run as [cs res] eqn:Hrun. subst run.
  unfold predict_testcounts_all_regions, wp, M.bind, M.get, M.ret, M.raise
    in Hrun, Hwp.
  destruct (forecast_regions _ _ _ _ _) as [st1 [e|[]]];
    cbn [fst snd app] in *.
  { injection Hrun as <- <-. rewrite Henough.
    split; [done|]. by intros column results0 [=]. }
  destruct Hwp as (Hi & (Hdom & _ & Hcol) & Hall).
  fold rows in Hi, Hdom, Hcol, Hall. rewrite <- Henough in Hi, Hdom, Hcol.
  destruct (predicted_new_tests st1) as [column|] eqn:Hp;
    injection Hrun as <- <-.
  2:{ split; [|by intros column results0 [=]].
      exists enough. by rewrite Hi. }
  split; [exists enough; by rewrite Hi|].
  intros column' results' [= <- <-]. split; [done|].
  assert (Hin : forall r, r ∈ enough <->
                          (10 < non_missing_observations r rows)%nat).
  { intros r. subst enough. rewrite list_elem_of_filter.
    split; [tauto|]. intros Hr. split; [done|].
    assert (Hrow : r ∈ map region rows) by (apply non_missing_elem_of; lia).
    apply list_elem_of_fmap in Hrow as (row & -> & Hrow).
    destruct Hwf as (_ & Hlevels & _).
    by apply (proj1 (Forall_forall _ _) Hlevels). }
  split; [|intros r Hr; split].
  - intros r. rewrite <- Hin, <- elem_of_dom, Hdom. apply elem_of_list_to_set.
  - apply not_elem_of_dom. rewrite Hdom, elem_of_list_to_set, Hin. lia.
  - intros i row Hrow <-. destruct (Hcol column eq_refl) as [_ Hnan].
    rewrite (Hnan i row Hrow) by (rewrite Hin; lia).
    unfold initial_column. destruct (df_predicted df) as [old|]; [done|].
    simpl. fold rows. by rewrite lookup_map, Hrow.
Qed.

(** C10.  When every label of the region level has rows and no region has
    more than 10 non-missing observations, the call has called neither the
    imputer nor a package; it raises the [KeyError] of the missing column
    [predicted_new_tests] when the frame has no such column, and returns the
    frame's own column with empty results when it has. *)
Theorem no_region_with_enough_data country o df calls0 :
  Forall (fun r => r ∈ map region (df_rows df)) (region_levels df) ->
  (forall r, r ∈ map region (df_rows df) ->
             (non_missing_observations r (df_rows df) <= 10)%nat) ->
  predict_testcounts_all_regions df country o calls0
  = (calls0,
     match df_predicted df with
     | None => inl (KeyError_column "predicted_new_tests")
     | Some column => inr (column, ∅)
     end).
Proof.
  intros Hlevels Hall. unfold predict_testcounts_all_regions, M.bind at 1.
  rewrite forecast_regions_skip.
  - unfold M.bind, M.get, M.ret, M.raise. simpl.
    by destruct (df_predicted df).
  - eapply Forall_impl; [exact Hlevels|]. intros r Hr. split; [done|].
    rewrite n_train_non_missing. specialize (Hall r Hr). lia.
Qed.

End all_regions_claims.

(** ** The claims on concrete calls *)

Import Demo.

(** When the series is passed in ascending order, the default floor is its
    earliest date. *)
Lemma floor_of_ascending s :
  ascending (index s) -> floor_of None s = head (index (normalized s)).
Proof.
  intros Hasc. unfold floor_of, normalized, index. simpl.
  by rewrite sort_index_id.
Qed.

(** [keep_data_preserves_observed] on the series of March 1 to 3 with the
    third value missing. *)
Lemma keep_data_preserves_observed_demo :
  let run :=
    predict_testcounts "DE" RNone false true None ∅ (series sorted_series) in
  let r := returned no_result run.2 in
  returns run.2 = true /\
  ((forall i d q,
       sort_index (entries (testcounts (series sorted_series))) !! i
       = Some (d, Some q) ->
       entries (result r) !! i = Some (d, Some q)) /\
   (forall d q,
       (d, Some q) ∈ entries (testcounts (series sorted_series)) ->
       (d, Some q) ∈ entries (result r))).
Proof.
  intros run r.
  assert (Hret : returns run.2 = true) by (vm_compute; reflexivity).
  split; [exact Hret|].
  exact (keep_data_preserves_observed "DE" RNone false None ∅
           (series sorted_series) run.1 r (run_returned no_result run Hret)).
Defined.

(** [predicted_values_clipped] on the same call. *)
Lemma predicted_values_clipped_demo :
  let run :=
    predict_testcounts "DE" RNone false true None ∅ (series sorted_series) in
  let r := returned no_result run.2 in
  returns run.2 = true /\
  exists floor,
    floor_of None (testcounts (series sorted_series)) = Some floor /\
    forall i d v,
      entries (result r) !! i = Some (d, v) ->
      exists v0,
        sort_index (entries (testcounts (series sorted_series))) !! i
        = Some (d, v0) /\
        match mask_predict true floor
                (normalized (testcounts (series sorted_series))) !! i with
        | Some true =>
            forall q, v = Some q ->
              exists hi, column_max (map snd (forecast r)) = Some hi /\
                         (q <= hi)%Q /\ ((0 <= hi)%Q -> (0 <= q)%Q)
        | _ => v = v0
        end.
Proof.
  intros run r.
  assert (Hret : returns run.2 = true) by (vm_compute; reflexivity).
  split; [exact Hret|].
  exact (predicted_values_clipped "DE" RNone false true None ∅
           (series sorted_series) run.1 r (run_returned no_result run Hret)).
Defined.

(** C2 as stated fails: with [keep_data=True] the observed 30 stays in the
    output although the largest point estimate is 20; and when every point
    estimate is negative, so is the value predicted for the missing day. *)
Lemma kept_value_above_clip :
  (let run :=
     predict_testcounts "DE" RNone false true None ∅ (series sorted_series) in
   let r := returned no_result run.2 in
   returns run.2 = true /\
   column_max (map snd (forecast r)) = Some 20%Q /\
   entries (result r) !! 0%nat = Some (march 1, Some 30%Q) /\
   ~ (30 <= 20)%Q) /\
  (let run :=
     predict_testcounts "DE" RNone false true None ∅ (series negative_series) in
   let r := returned no_result run.2 in
   returns run.2 = true /\
   column_max (map snd (forecast r)) = Some (-3)%Q /\
   entries (result r) !! 2%nat = Some (march 3, Some (-3)%Q) /\
   ~ (0 <= -3)%Q).
Proof.
  split; intros run r;
    (split; [vm_compute; reflexivity|]);
    (split; [vm_compute; reflexivity|]);
    (split; [vm_compute; reflexivity|]); by vm_compute.
Qed.

(** [result_index_sorted] on the series passed with the dates 2, 1, 3 of
    March. *)
Lemma result_index_sorted_demo :
  let run :=
    predict_testcounts "DE" RNone false true None ∅ (series unsorted_series) in
  let r := returned no_result run.2 in
  returns run.2 = true /\
  index (result r)
  = map fst (sort_index (entries (testcounts (series unsorted_series)))) /\
  index (result r) = index (testcounts run.1) /\
  index (result r) ≡ₚ index (testcounts (series unsorted_series)) /\
  ascending (index (result r)) /\
  (ascending (index (testcounts (series unsorted_series))) ->
   index (result r) = index (testcounts (series unsorted_series))).
Proof.
  intros run r.
  assert (Hret : returns run.2 = true) by (vm_compute; reflexivity).
  split; [exact Hret|].
  exact (result_index_sorted "DE" RNone false true None ∅
           (series unsorted_series) run.1 r (run_returned no_result run Hret)).
Defined.

(** C3 as stated fails: the series is passed with the dates 2, 1, 3 of March
    and the output has them as 1, 2, 3. *)
Lemma result_index_not_as_passed :
  let run :=
    predict_testcounts "DE" RNone false true None ∅ (series unsorted_series) in
  let r := returned no_result run.2 in
  returns run.2 = true /\
  index (testcounts (series unsorted_series)) = [march 2; march 1; march 3] /\
  index (result r) = [march 1; march 2; march 3] /\
  index (result r) ≠ index (testcounts (series unsorted_series)).
Proof.
  intros run r. split; [vm_compute; reflexivity|].
  split; [vm_compute; reflexivity|]. split; [vm_compute; reflexivity|].
  by vm_compute.
Qed.

(** C4.  On a series from 2019-12-31 to 2021-01-01 the call returns having
    asked for the holidays of 2019 and 2021 only: 2020, which lies between
    the first and the last date, is not among the years. *)
Theorem years_are_first_and_last_only :
  let run :=
    predict_testcounts "DE" RNone false true None ∅ (series three_years) in
  returns run.2 = true /\
  holiday_years (calls run.1) = [ {[ 2019; 2021 ]} ] /\
  2020 ∉ ({[ 2019; 2021 ]} : gset Z).
Proof.
  intros run. split; [vm_compute; reflexivity|].
  split; [vm_compute; reflexivity|].
  rewrite elem_of_union, !elem_of_singleton. lia.
Qed.

(** C5.  On the series passed with the dates 2, 1, 3 of March and no
    [ignore_before], the floor is March 2, the first date as passed, and not
    March 1, the first date of the sorted series: the frame the model is
    fitted on lacks the observation of March 1. *)
Theorem default_floor_is_first_as_passed :
  let st := series unsorted_series in
  let run := predict_testcounts "DE" RNone false true None ∅ st in
  returns run.2 = true /\
  floor_of None (testcounts st) = Some (march 2) /\
  head (index (testcounts run.1)) = Some (march 1) /\
  fit_frames (calls run.1)
  = [ {| value_column := "y";
         rows := [(march 2, Some 10%Q); (march 3, None)];
         floor_cap := Some (0, Some 30%Q) |} ].
Proof.
  intros st run. split; [vm_compute; reflexivity|].
  split; [reflexivity|]. split; vm_compute; reflexivity.
Qed.

(** [regional_holidays_one_region] for the single region [BY]. *)
Lemma regional_holidays_one_region_demo :
  entries (testcounts (series unsorted_series)) ≠ [] /\
  eq_all (RStr "BY") = false /\
  (length (atleast_1d (RStr "BY")) <= 1)%nat /\
  predict_testcounts "DE" (RStr "BY") true true None ∅ (series unsorted_series)
  = (mkCaller (normalized (testcounts (series unsorted_series)))
       (calls (series unsorted_series)),
     inl ValueError_regional_holidays).
Proof.
  assert (H1 : entries (testcounts (series unsorted_series)) ≠ []) by done.
  assert (H2 : eq_all (RStr "BY") = false) by reflexivity.
  assert (H3 : (length (atleast_1d (RStr "BY")) <= 1)%nat) by (simpl; lia).
  split; [exact H1|]. split; [exact H2|]. split; [exact H3|].
  exact (regional_holidays_one_region "DE" (RStr "BY") true None ∅
           (series unsorted_series) H1 H2 H3).
Defined.

(** C6 as stated fails: on an empty series the call raises [IndexError], at
    line 133 or, when [ignore_before] is given, at line 146, before the
    check of line 149. *)
Lemma empty_series_raises_IndexError :
  eq_all RNone = false /\
  (length (atleast_1d RNone) <= 1)%nat /\
  predict_testcounts "DE" RNone true true None ∅ (series [])
  = (mkCaller (mkSeries (Some "date") (Some "total") []) [], inl IndexError) /\
  predict_testcounts "DE" RNone true true (Some (march 1)) ∅ (series [])
  = (mkCaller (mkSeries (Some "date") (Some "total") []) [], inl IndexError).
Proof. repeat split; reflexivity. Qed.

(** C8.  Morocco resolves to [MAR], for which the holidays package has no
    country class but the month constant 3: the test of line 48 passes, and
    [get_holidays] raises the [TypeError] of calling a number at line 61
    (with ["all"], the [AttributeError] of line 57) instead of the error of
    line 49 for a country that is not in the package.  A region that is in
    neither list of a country class does raise the error of line 70. *)
Theorem month_constant_passes_for_country :
  iso3166_alpha3 "Morocco" = Some "MAR" /\
  holidays_getattr "MAR" = Some (Constant 3) /\
  get_holidays "Morocco" RNone {[ 2020 ]} = inl TypeError_not_callable /\
  get_holidays "Morocco" (RStr "all") {[ 2020 ]}
  = inl (AttributeError "PROVINCES") /\
  get_holidays "AQ" RNone {[ 2020 ]} = inl (KeyError_country "ATA") /\
  get_holidays "DE" (RList ["BY"; "XX"]) {[ 2020 ]}
  = inl (KeyError_region "XX" "DEU").
Proof. repeat split; reflexivity. Qed.

(** [input_series_mutated] on a call that raises the error of line 150: the
    caller's series is sorted all the same. *)
Lemma input_series_mutated_demo :
  let run :=
    predict_testcounts "DE" RNone true true None ∅ (series unsorted_series) in
  run.2 = inl ValueError_regional_holidays /\
  testcounts run.1 = normalized (testcounts (series unsorted_series)) /\
  entries (testcounts run.1) = sorted_series.
Proof.
  intros run.
  assert (Hrun : run.2 = inl ValueError_regional_holidays) by reflexivity.
  split; [exact Hrun|].
  split; [|reflexivity].
  exact (proj2 (input_series_mutated "DE" RNone true true None ∅
                  (series unsorted_series)) Hrun).
Defined.

(** [only_regions_with_enough_data] on the frame of [BW], [BY] and [HE];
    [HE] has 12 rows and 10 observations. *)
Lemma only_regions_with_enough_data_demo :
  let rows := gaps_rows in
  let run := predict_testcounts_all_regions gaps_frame "DE" no_overrides [] in
  let column := (returned ([], ∅) run.2).1 in
  let results := (returned ([], ∅) run.2).2 in
  well_formed gaps_frame /\
  returns run.2 = true /\
  imputed run.1
  = ([] ++ filter (fun r => (10 < non_missing_observations r rows)%nat)
                  (region_levels gaps_frame))%list /\
  (forall r, is_Some (results !! r) <->
             (10 < non_missing_observations r rows)%nat) /\
  (forall r, (non_missing_observations r rows <= 10)%nat ->
             results !! r = None /\
             forall i row, rows !! i = Some row -> region row = r ->
                           column !! i = Some None).
Proof.
  intros rows run column results.
  assert (Hwf : well_formed gaps_frame) by apply well_formed_frame_of.
  assert (Hret : returns run.2 = true) by (vm_compute; reflexivity).
  split; [exact Hwf|]. split; [exact Hret|].
  exact (proj2 (only_regions_with_enough_data "DE" no_overrides gaps_frame []
                  Hwf)
           column results (returns_returned_pair ([], ∅) run.2 Hret)).
Defined.

(** The frame of [BW], [BY] and [HE]: the imputer is called for [BY] only,
    which has 11 observations; [HE] has 12 rows and 10 observations, and
    the column is NaN at the rows of [BW] and [HE]. *)
Example frame_forecast :
  let run := predict_testcounts_all_regions gaps_frame "DE" no_overrides [] in
  let column := (returned ([], ∅) run.2).1 in
  let results := (returned ([], ∅) run.2).2 in
  returns run.2 = true /\
  region_levels gaps_frame = ["BW"; "BY"; "HE"] /\
  map (fun r => non_missing_observations r gaps_rows) ["BW"; "BY"; "HE"]
  = [1; 11; 10]%nat /\
  length (filter (fun row => region row = "HE") gaps_rows) = 12%nat /\
  imputed run.1 = ["BY"] /\
  dom results = {[ "BY" ]} /\
  drop 12 column = replicate 14 None.
Proof.
  intros run column results. split_and!; vm_compute; reflexivity.
Qed.

(** C7 as stated fails on a frame that has a column [predicted_new_tests]
    already: [BW] has one observation, no imputation is attempted for it,
    and the returned column has the value 7 of the frame at its rows. *)
Lemma stale_values_at_skipped_rows :
  let run := predict_testcounts_all_regions stale_frame "DE" no_overrides [] in
  let column := (returned ([], ∅) run.2).1 in
  let results := (returned ([], ∅) run.2).2 in
  well_formed stale_frame /\
  returns run.2 = true /\
  non_missing_observations "BW" (df_rows stale_frame) = 1%nat /\
  imputed run.1 = ["BY"] /\
  results !! "BW" = None /\
  map region (drop 12 (df_rows stale_frame)) = ["BW"; "BW"] /\
  drop 12 column = [Some 7%Q; Some 7%Q].
Proof.
  intros run column results. split.
  { apply well_formed_with_predicted; [apply well_formed_frame_of|done]. }
  split_and!; vm_compute; reflexivity.
Qed.

(** [no_region_with_enough_data] on the frame of [BW] alone. *)
Lemma no_region_with_enough_data_demo :
  Forall (fun r => r ∈ map region (df_rows small_frame))
         (region_levels small_frame) /\
  (forall r, r ∈ map region (df_rows small_frame) ->
             (non_missing_observations r (df_rows small_frame) <= 10)%nat) /\
  predict_testcounts_all_regions small_frame "DE" no_overrides []
  = ([], inl (KeyError_column "predicted_new_tests")).
Proof.
  assert (Hlevels : Forall (fun r => r ∈ map region (df_rows small_frame))
                           (region_levels small_frame)).
  { apply Forall_forall. intros r Hr. by apply elem_of_sorted_regions. }
  assert (Hsmall : forall r, r ∈ map region (df_rows small_frame) ->
             (non_missing_observations r (df_rows small_frame) <= 10)%nat).
  { intros r Hr. simpl in Hr. rewrite !elem_of_cons, elem_of_nil in Hr.
    destruct Hr as [->|[->|[]]]; vm_compute; lia. }
  split; [exact Hlevels|]. split; [exact Hsmall|].
  exact (no_region_with_enough_data "DE" no_overrides small_frame []
           Hlevels Hsmall).
Defined.

(** C10 as stated fails.  The frame of [BW] alone, with one observation and
    a column [predicted_new_tests] already: the call returns that column
    and empty results, and raises nothing.  And the same rows under a level
    that kept the label [BY]: the [KeyError] is that of [df.xs] of line 254
    for [BY], not that of the column. *)
Lemma stale_column_returned :
  map (fun row => (region row, new_tests row)) small_rows
  = [("BW", Some 5%Q); ("BW", None)] /\
  non_missing_observations "BW" small_rows = 1%nat /\
  df_rows stale_small_frame = small_rows /\
  predict_testcounts_all_regions stale_small_frame "DE" no_overrides []
  = ([], inr ([Some 7%Q; Some 8%Q], ∅)) /\
  df_rows sliced_frame = small_rows /\
  predict_testcounts_all_regions sliced_frame "DE" no_overrides []
  = ([], inl (KeyError_xs "BY")).
Proof. split_and!; vm_compute; reflexivity. Qed.


(** * More on the three functions *)

(** ** get_holidays: what a call that does not raise returns *)

Section get_holidays_more.
Context `{Packages}.





(** The loop on regions that are all known is a fold of dictionary
    updates. *)
Lemma add_regions_known country cls years regions result :
  Forall (known_region cls) regions ->
  add_regions country cls years regions result
  = inr (foldl (fun acc r =>
                  HolidayBase_update (region_holidays cls years r) acc)
               result regions).
Proof.
  intros Hall. revert result.
  induction Hall as [|r regions Hr _ IH]; intros result; [done|].
  simpl. unfold region_holidays at 2. case_bool_decide as Hp; [apply IH|].
  destruct Hr as [Hr|Hr]; [done|].
  destruct (STATES cls) as [states|]; simpl in Hr.
  - rewrite bool_decide_eq_true_2 by done. apply IH.
  - by inversion Hr.
Qed.

Lemma add_regions_returns country cls years regions result m :
  add_regions country cls years regions result = inr m ->
  Forall (known_region cls) regions.
Proof.
  intros Hm. apply Forall_forall. intros r Hr.
  destruct (decide (r ∈ map Some (PROVINCES cls))) as [|Hp]; [by left|].
  destruct (decide (r ∈ map Some (default [] (STATES cls)))) as [|Hs];
    [by right|].
  destruct (add_regions_unknown country cls years regions result r Hr Hp Hs)
    as (bad & _ & _ & _ & Hbad).
  congruence.
Qed.

(** The loop stops at the first region that is not known. *)
Lemma add_regions_stops country cls years before bad after result :
  Forall (known_region cls) before ->
  ~ known_region cls bad ->
  add_regions country cls years (before ++ bad :: after) result
  = inl (KeyError_region (region_repr bad) country).
Proof.
  intros Hall Hbad. revert result.
  induction Hall as [|r regions Hr _ IH]; intros result; simpl.
  - rewrite bool_decide_eq_false_2 by (intros ?; apply Hbad; by left).
    destruct (STATES cls) as [states|] eqn:Hst; [|done].
    rewrite bool_decide_eq_false_2; [done|].
    intros ?. apply Hbad. right. by rewrite Hst.
  - case_bool_decide as Hp; [apply IH|].
    destruct Hr as [Hr|Hr]; [done|].
    destruct (STATES cls) as [states|]; simpl in Hr.
    + rewrite bool_decide_eq_true_2 by done. apply IH.
    + by inversion Hr.
Qed.



(** X1.  With no region ([None], an empty string or an empty list) the
    calendar is the national one of the years. *)
Theorem get_holidays_national country alpha3 cls region years :
  iso3166_alpha3 country = Some alpha3 ->
  holidays_getattr alpha3 = Some (CountryClass cls) ->
  falsy region = true ->
  get_holidays country region years = inr (construct cls years None None).
Proof.
  intros Hiso Hcls Hf. unfold get_holidays, requested_regions.
  by rewrite Hiso, Hcls, Hf.
Qed.

(** X2.  For a country the package has a class for, the call returns exactly
    when every requested region is a province or a state of the class; in
    particular it always returns for ["all"]. *)
Theorem get_holidays_returns_iff country alpha3 cls region years :
  iso3166_alpha3 country = Some alpha3 ->
  holidays_getattr alpha3 = Some (CountryClass cls) ->
  ((exists m, get_holidays country region years = inr m) <->
   Forall (known_region cls) (requested_regions cls region)) /\
  (exists m, get_holidays country (RStr "all") years = inr m).
Proof.
  intros Hiso Hcls. unfold get_holidays. rewrite Hiso, Hcls. split.
  - split.
    + intros [m Hm]. by eapply add_regions_returns.
    + intros Hall. eexists. by apply add_regions_known.
  - eexists. apply add_regions_known. unfold requested_regions. simpl.
    apply Forall_forall. intros r Hr. unfold known_region.
    destruct (STATES cls) as [states|]; simpl in *; [by right|by left].
Qed.



(** X5.  A region given as a string that is neither empty nor ["all"] is
    treated as the one-element list of it. *)
Theorem get_holidays_one_region country s years :
  s ≠ "" -> s ≠ "all" ->
  get_holidays country (RStr s) years = get_holidays country (RList [s]) years.
Proof.
  intros Hs Hall.
  assert (Hf : falsy (RStr s) = false /\ falsy (RList [s]) = false).
  { unfold falsy. by rewrite !bool_decide_eq_false_2 by done. }
  destruct Hf as [Hf Hf'].
  assert (Hreq : forall cls,
             requested_regions cls (RStr s) = requested_regions cls (RList [s])).
  { intros cls. unfold requested_regions. rewrite Hf, Hf'.
    unfold eq_all. by rewrite bool_decide_eq_false_2 by done. }
  unfold get_holidays. destruct (iso3166_alpha3 country); [|done].
  destruct (holidays_getattr _) as [[cls|n]|]; [| |done].
  - by rewrite Hreq.
  - rewrite Hf, Hf'. simpl. by rewrite bool_decide_eq_false_2 by done.
Qed.

(** X20.  For a country the package has a class for, [get_holidays] raises
    the error of line 70 for the first requested region that is neither a
    province nor a state of the class, whatever comes after it. *)
Theorem get_holidays_unknown_region
    country alpha3 cls region years before bad after :
  iso3166_alpha3 country = Some alpha3 ->
  holidays_getattr alpha3 = Some (CountryClass cls) ->
  requested_regions cls region = (before ++ bad :: after)%list ->
  Forall (known_region cls) before ->
  ~ known_region cls bad ->
  get_holidays country region years
  = inl (KeyError_region (region_repr bad) alpha3).
Proof.
  intros Hiso Hcls Hreq Hbefore Hbad. unfold get_holidays.
  rewrite Hiso, Hcls, Hreq. by apply add_regions_stops.
Qed.

End get_holidays_more.

(** ** predict_testcounts: edge cases and the calls it makes *)

Section predict_testcounts_more.
Context `{Packages}.

Lemma loc_mask_map {A} (f : A -> bool) (l : list A) :
  loc_mask (map f l) l = List.filter f l.
Proof.
  induction l as [|x l IH]; simpl; [done|]. destruct (f x); by rewrite IH.
Qed.

Lemma mask_fit_rows floor tc :
  loc_mask (mask_fit floor tc) (entries tc)
  = List.filter (fun e => Timestamp_geb e.1 floor) (entries tc).
Proof.
  unfold mask_fit, index. rewrite map_map. apply loc_mask_map.
Qed.

(** What [holiday_frame] logs and returns. *)
Lemma wp_holiday_frame_calls country region rh years st :
  wp (holiday_frame country region rh years)
     (fun _ _ => True)
     (fun st' hol =>
        testcounts st' = testcounts st /\
        calls st' = (calls st ++ holiday_calls country region rh years)%list /\
        get_holidays country (holiday_selector region rh) years = inr hol.1 /\
        regressor_rows country region rh years hol.1 hol.2)
     st.
Proof.
  unfold holiday_frame, holiday_calls, holiday_selector, regressor_rows,
    call_get_holidays, log.
  destruct (several_regions region && rh).
  - apply wp_bind, wp_bind, wp_modify, wp_lift.
    destruct (get_holidays country region years) as [e|hs] eqn:Hhs; [done|].
    apply wp_bind, wp_bind, wp_modify, wp_lift.
    destruct (get_holidays country RNone years) as [e|nat] eqn:Hnat; [done|].
    apply wp_ret. simpl. rewrite <- app_assoc. repeat split; try done.
    + rewrite map_map. rewrite <- (map_id (map_to_list hs)) at 2.
      apply map_ext. by intros [].
    + exists nat. split; [done|]. apply Forall_forall.
      intros row ([d n] & -> & _)%list_elem_of_fmap. done.
  - apply wp_bind, wp_bind, wp_modify, wp_lift.
    destruct (get_holidays country RNone years) as [e|hs] eqn:Hhs; [done|].
    apply wp_ret. simpl. repeat split; try done.
    + rewrite map_map. rewrite <- (map_id (map_to_list hs)) at 2.
      apply map_ext. by intros [].
    + apply Forall_forall.
      intros row ([d n] & -> & _)%list_elem_of_fmap. done.
Qed.

(** The run of a call that returns, step by step. *)
Lemma predict_testcounts_trace_wp country region rh kd ib kwargs st :
  wp (predict_testcounts country region rh kd ib kwargs)
     (fun _ _ => True)
     (fun st' r =>
  let tc := normalized (testcounts st) in
    exists floor first lst holiday_df m0,
      let kw := kwargs ∪ default_prophet_kwargs holiday_df
                           (days_between lst first) in
      floor_of ib (testcounts st) = Some floor /\
      head (index tc) = Some first /\
      last (index tc) = Some lst /\
      national_or_one_region region && rh = false /\
      get_holidays country (holiday_selector region rh)
        {[ year first; year lst ]} = inr (all_holidays r) /\
      regressor_rows country region rh {[ year first; year lst ]}
        (all_holidays r) holiday_df /\
      Prophet_init kw = inr m0 /\
      Prophet_fit m0 (fit_frame kw floor tc) = inr (model r) /\
      Prophet_predict (model r) (predict_frame kw tc) = inr (forecast r) /\
      reassemble tc (mask_predict kd floor tc) (forecast r) = inr (result r) /\
      calls st'
      = (calls st
         ++ holiday_calls country region rh {[ year first; year lst ]}
         ++ [Call_Prophet kw; Call_fit (fit_frame kw floor tc);
             Call_predict (predict_frame kw tc)])%list)
     st.
Proof.
  destruct st as [[iname nm es] cs]. unfold predict_testcounts.
  apply wp_bind, wp_modify. apply wp_bind, wp_modify. simpl.
  apply wp_bind.
  assert (Hfloor :
    wp (match ib with Some t => M.ret t | None => index_first end)
       (fun _ _ => True)
       (fun st' fl =>
          st' = mkCaller (mkSeries (Some "date") (Some "total") es) cs /\
          floor_of ib (mkSeries iname nm es) = Some fl)
       (mkCaller (mkSeries (Some "date") (Some "total") es) cs)).
  { destruct ib as [t|]; [by apply wp_ret|].
    unfold index_first. apply wp_bind, wp_get. simpl.
    destruct es as [|[d v] es]; simpl; [by apply wp_raise | by apply wp_ret]. }
  eapply wp_mono; [| |exact Hfloor]; simpl; [done|].
  intros st1 fl [-> Hfl]. clear Hfloor.
  apply wp_bind, wp_modify. simpl.
  apply wp_bind, wp_bind, wp_get, wp_ret. simpl.
  change (mkSeries (Some "date") (Some "total") (sort_index es))
    with (normalized (mkSeries iname nm es)).
  cbn [testcounts calls].
  remember (normalized (mkSeries iname nm es)) as N eqn:HN.
  assert (HeN : sort_index es = entries N) by by subst N.
  rewrite !HeN.
  unfold index_first, index_last.
  apply wp_bind, wp_bind, wp_get. cbn [testcounts].
  destruct (index N) as [|first idx] eqn:Hidx;
    [by apply wp_raise|apply wp_ret].
  apply wp_bind, wp_bind, wp_get. cbn [testcounts]. rewrite Hidx.
  destruct (last (first :: idx)) as [lst|] eqn:Hlast;
    [apply wp_ret|by apply wp_raise].
  destruct (national_or_one_region region && rh) eqn:Hcheck;
    [by apply wp_raise|].
  apply wp_bind.
  eapply wp_mono; [| |apply wp_holiday_frame_calls]; cbv beta; [done|].
  intros st2 [hs hdf] (Htc2 & Hcalls2 & Hhs & Hrows). simpl in Hhs, Hrows.
  unfold log. apply wp_bind, wp_modify, wp_bind, wp_lift.
  destruct (Prophet_init _) as [e|m0] eqn:Hinit; [done|].
  apply wp_bind, wp_modify, wp_bind, wp_lift.
  destruct (Prophet_fit _ _) as [e|m1] eqn:Hfit; [done|].
  apply wp_bind, wp_modify, wp_bind, wp_lift.
  destruct (Prophet_predict _ _) as [e|fc] eqn:Hpred; [done|].
  apply wp_bind, wp_lift.
  destruct (reassemble _ _ _) as [e|res] eqn:Hres; [done|].
  apply wp_ret. exists fl, first, lst, hdf, m0. cbn zeta.
  cbn [all_holidays model forecast calls testcounts].
  rewrite mask_fit_rows in Hfit. rewrite Hcalls2. cbn [calls].
  rewrite mask_fit_rows, <- !app_assoc. split_and!; done.
Qed.

Lemma predict_testcounts_trace country region rh kd ib kwargs st st' r :
  predict_testcounts country region rh kd ib kwargs st = (st', inr r) ->
  let tc := normalized (testcounts st) in
  exists floor first lst holiday_df m0,
    let kw := kwargs ∪ default_prophet_kwargs holiday_df
                         (days_between lst first) in
    floor_of ib (testcounts st) = Some floor /\
    head (index tc) = Some first /\
    last (index tc) = Some lst /\
    national_or_one_region region && rh = false /\
    get_holidays country (holiday_selector region rh)
      {[ year first; year lst ]} = inr (all_holidays r) /\
    regressor_rows country region rh {[ year first; year lst ]}
      (all_holidays r) holiday_df /\
    Prophet_init kw = inr m0 /\
    Prophet_fit m0 (fit_frame kw floor tc) = inr (model r) /\
    Prophet_predict (model r) (predict_frame kw tc) = inr (forecast r) /\
    reassemble tc (mask_predict kd floor tc) (forecast r) = inr (result r) /\
    calls st'
    = (calls st
       ++ holiday_calls country region rh {[ year first; year lst ]}
       ++ [Call_Prophet kw; Call_fit (fit_frame kw floor tc);
           Call_predict (predict_frame kw tc)])%list.
Proof.
  intros Hrun.
  exact (wp_run _ _ _ _ _ _
           (predict_testcounts_trace_wp country region rh kd ib kwargs st)
           Hrun).
Qed.

Lemma mask_predict_before_floor kd floor tc i d v :
  entries tc !! i = Some (d, v) ->
  Timestamp_geb d floor = false ->
  mask_predict kd floor tc !! i ≠ Some true.
Proof.
  intros He Hd. unfold mask_predict, index, values. destruct kd.
  - rewrite lookup_zip_with, !lookup_map, He. simpl.
    by rewrite Hd.
  - rewrite !lookup_map, He. simpl. by rewrite Hd.
Qed.

(** X6.  On an empty series every call raises [IndexError], whatever the
    other arguments: at line 133 or at line 146, after the renaming, and
    before any call to the holidays package or the model. *)
Theorem predict_testcounts_empty country region rh kd ib kwargs st :
  entries (testcounts st) = [] ->
  predict_testcounts country region rh kd ib kwargs st
  = (mkCaller (mkSeries (Some "date") (Some "total") []) (calls st),
     inl IndexError).
Proof.
  destruct st as [[iname nm es] cs]. simpl. intros ->.
  by destruct ib.
Qed.

(** X7.  Without [regional_holidays] the region selector is not used: two
    calls that differ in it only have the same outcome, the same log and
    leave the same series. *)
Theorem region_unused_without_regional_holidays
    country region region' kd ib kwargs st :
  predict_testcounts country region false kd ib kwargs st
  = predict_testcounts country region' false kd ib kwargs st.
Proof.
  unfold predict_testcounts, holiday_frame.
  rewrite !andb_false_r. reflexivity.
Qed.

(** X8.  In a call that returns, the entries dated before the floor
    ([ignore_before], or the first date as passed) come back as they were
    given, with either value of [keep_data]: a missing value before the
    floor stays missing. *)
Theorem dates_before_floor_untouched country region rh kd ib kwargs st st' r :
  predict_testcounts country region rh kd ib kwargs st = (st', inr r) ->
  exists floor,
    floor_of ib (testcounts st) = Some floor /\
    forall i d v,
      sort_index (entries (testcounts st)) !! i = Some (d, v) ->
      Timestamp_geb d floor = false ->
      entries (result r) !! i = Some (d, v).
Proof.
  intros (_ & fl & Hfl & Hres)%predict_testcounts_returns.
  exists fl. split; [done|]. intros i d v Hi Hd.
  apply reassemble_inv in Hres as (new & _ & _ & _ & ->).
  apply lookup_zip_with_Some. exists d, v. split; [done|]. split.
  - unfold index. rewrite lookup_map. simpl. by rewrite Hi.
  - rewrite set_mask_lookup_false
      by by eapply (mask_predict_before_floor kd fl (normalized _)).
    unfold values. rewrite lookup_map. simpl. by rewrite Hi.
Qed.

(** X9.  A call that returns has made these calls, in this order: the
    holidays of the first and the last year of the sorted series (twice when
    the regional distinction applies), one model with the caller's keywords
    over the defaults, one fit on the rows of the sorted series from the
    floor on, and one prediction on all its rows, with the same floor and
    cap columns as the fit. *)
Theorem calls_of_a_returning_run country region rh kd ib kwargs st st' r :
  predict_testcounts country region rh kd ib kwargs st = (st', inr r) ->
  let tc := normalized (testcounts st) in
  exists floor first lst holiday_df,
    let kw := kwargs ∪ default_prophet_kwargs holiday_df
                         (days_between lst first) in
    floor_of ib (testcounts st) = Some floor /\
    head (index tc) = Some first /\
    last (index tc) = Some lst /\
    calls st'
    = (calls st
       ++ holiday_calls country region rh {[ year first; year lst ]}
       ++ [Call_Prophet kw; Call_fit (fit_frame kw floor tc);
           Call_predict (predict_frame kw tc)])%list.
Proof.
  intros Hrun tc.
  destruct (predict_testcounts_trace _ _ _ _ _ _ _ _ _ Hrun)
    as (fl & first & lst & hdf & m0 & Hfl & Hfirst & Hlast & _ & _ & _ & _ & _
        & _ & _ & Hcalls).
  by exists fl, first, lst, hdf.
Qed.

(** X10.  What a call that returns gives back besides the series: the
    holidays [get_holidays] has for the first and the last year of the
    sorted series (for the caller's regions when the regional distinction
    applies, else national), the fitted model, and the prediction of that
    model for every row of the sorted series. *)
Theorem returned_model_and_holidays country region rh kd ib kwargs st st' r :
  predict_testcounts country region rh kd ib kwargs st = (st', inr r) ->
  let tc := normalized (testcounts st) in
  exists floor first lst holiday_df m0,
    let kw := kwargs ∪ default_prophet_kwargs holiday_df
                         (days_between lst first) in
    floor_of ib (testcounts st) = Some floor /\
    head (index tc) = Some first /\
    last (index tc) = Some lst /\
    get_holidays country (holiday_selector region rh)
      {[ year first; year lst ]} = inr (all_holidays r) /\
    Prophet_init kw = inr m0 /\
    Prophet_fit m0 (fit_frame kw floor tc) = inr (model r) /\
    Prophet_predict (model r) (predict_frame kw tc) = inr (forecast r).
Proof.
  intros Hrun tc.
  destruct (predict_testcounts_trace _ _ _ _ _ _ _ _ _ Hrun)
    as (fl & first & lst & hdf & m0 & Hfl & Hfirst & Hlast & _ & Hhs & _
        & Hinit & Hfit & Hpred & _ & _).
  by exists fl, first, lst, hdf, m0.
Qed.

(** X11.  When the first fetch of holidays raises (an unknown country, an
    unknown region), the call raises the same error; the series is renamed
    and sorted by then, that fetch is the only call made, and no model is
    built. *)
Theorem holiday_error_propagates
    country region rh kd ib kwargs st first lst e :
  head (index (normalized (testcounts st))) = Some first ->
  last (index (normalized (testcounts st))) = Some lst ->
  national_or_one_region region && rh = false ->
  get_holidays country (holiday_selector region rh) {[ year first; year lst ]}
  = inl e ->
  predict_testcounts country region rh kd ib kwargs st
  = (mkCaller (normalized (testcounts st))
       (calls st ++ [Call_get_holidays country (holiday_selector region rh)
                       {[ year first; year lst ]}]),
     inl e).
Proof.
  destruct st as [[iname nm es] cs]. unfold normalized, index. simpl.
  intros Hfirst Hlast Hcheck Hhs.
  destruct (sort_index es) as [|e0 ses] eqn:Hs; [done|].
  destruct es as [|e1 es]; [done|].
  unfold predict_testcounts, update_testcounts, index_first, index_last,
    holiday_frame, call_get_holidays, log, holiday_selector,
    M.bind, M.modify, M.get, M.ret, M.raise, M.lift, index in *.
  cbn [map head] in Hfirst, Hlast. injection Hfirst as <-.
  destruct ib as [t|]; cbn -[sort_index last]; rewrite Hs;
    cbn -[sort_index last]; rewrite Hlast, Hcheck;
    destruct (several_regions region && rh);
    cbn -[sort_index last]; by rewrite Hhs.
Qed.

(** X12.  The series a call returns is named [testcount], its index is
    named [date], and it has one entry for each entry of the input. *)
Theorem result_series_shape country region rh kd ib kwargs st st' r :
  predict_testcounts country region rh kd ib kwargs st = (st', inr r) ->
  index_name (result r) = Some "date" /\
  name (result r) = Some "testcount" /\
  length (entries (result r)) = length (entries (testcounts st)).
Proof.
  intros (_ & fl & _ & Hres)%predict_testcounts_returns.
  pose proof (reassemble_index _ _ _ _ Hres) as Hidx.
  apply reassemble_inv in Hres as (new & _ & Hin & Hn & _).
  repeat split; [done..|].
  rewrite <- (length_map fst (entries (result r))).
  change (map fst (entries (result r))) with (index (result r)).
  rewrite Hidx. unfold index. simpl.
  by rewrite length_map, sort_index_length.
Qed.


(** X14.  The model of a call that returns is built with the keywords
    [holidays] (unless the caller overrides it) set to a frame with one row
    for each holiday of the returned calendar, date and name; every row has
    the class ["holiday"], or, when the regional distinction applies,
    ["national"] if its date is in the national calendar and ["regional"]
    if not. *)
Theorem holiday_regressors country region rh kd ib kwargs st st' r :
  predict_testcounts country region rh kd ib kwargs st = (st', inr r) ->
  exists first lst holiday_df prophet_kwargs,
    head (index (normalized (testcounts st))) = Some first /\
    last (index (normalized (testcounts st))) = Some lst /\
    Call_Prophet prophet_kwargs ∈ calls st' /\
    (kwargs !! "holidays" = None ->
     prophet_kwargs !! "holidays" = Some (KwFrame holiday_df)) /\
    regressor_rows country region rh {[ year first; year lst ]}
      (all_holidays r) holiday_df.
Proof.
  intros Hrun.
  destruct (predict_testcounts_trace _ _ _ _ _ _ _ _ _ Hrun)
    as (fl & first & lst & hdf & m0 & Hfl & Hfirst & Hlast & _ & Hhs & Hrows
        & _ & _ & _ & _ & Hcalls).
  exists first, lst, hdf,
    (kwargs ∪ default_prophet_kwargs hdf (days_between lst first)).
  split_and!; try done.
  - rewrite Hcalls, !elem_of_app. right. right. left.
  - intros Hno. by rewrite lookup_union_r.
Qed.

End predict_testcounts_more.

(** ** predict_testcounts_all_regions: the column and the results *)

Lemma loc_mask_length {A B} mask (l : list A) (l' : list B) :
  length l = length l' ->
  length (loc_mask mask l) = length (loc_mask mask l').
Proof.
  revert l l'. induction mask as [|b mask IH]; intros l l' Hlen; [done|].
  destruct l as [|x l], l' as [|x' l']; simplify_eq/=; [done|].
  destruct b; simpl; auto.
Qed.

Lemma loc_mask_set_mask_same {A} mask (l new : list A) :
  length new = length (loc_mask mask l) ->
  loc_mask mask (set_mask mask l new) = new.
Proof.
  revert mask new. induction l as [|x l IH]; intros mask new Hlen.
  - destruct mask; simpl in *; by destruct new.
  - destruct mask as [|[] mask]; simpl in *.
    + by destruct new.
    + destruct new as [|y new]; [done|]. simpl. f_equal. apply IH. by simplify_eq/=.
    + by apply IH.
Qed.

Lemma loc_mask_set_mask_other {A} mask mask' (l new : list A) :
  (forall i, mask !! i = Some true -> mask' !! i = Some true -> False) ->
  loc_mask mask (set_mask mask' l new) = loc_mask mask l.
Proof.
  revert mask mask' new.
  induction l as [|x l IH]; intros mask mask' new Hdis; [done|].
  destruct mask as [|b mask]; [done|].
  assert (Htail : forall mask'',
             mask' = true :: mask'' \/ mask' = false :: mask'' ->
             forall i, mask !! i = Some true -> mask'' !! i = Some true ->
                       False).
  { intros mask'' Hm i Hi Hi'. apply (Hdis (S i)); [done|].
    by destruct Hm as [->| ->]. }
  destruct mask' as [|b' mask']; simpl; [done|].
  destruct b'.
  - assert (b = false) as ->.
    { destruct b; [|done]. by destruct (Hdis 0%nat). }
    destruct new as [|y new]; simpl; eapply IH, Htail; eauto.
  - destruct b; simpl; [f_equal|]; eapply IH, Htail; eauto.
Qed.

Lemma loc_mask_lookup {A} mask (l : list A) i x :
  mask !! i = Some true -> l !! i = Some x ->
  loc_mask mask l !! rank mask i = Some x.
Proof.
  revert l i. induction mask as [|b mask IH]; intros l i Hm Hl; [done|].
  destruct l as [|y l]; [done|].
  destruct i as [|i]; simpl in *.
  - by simplify_eq/=.
  - unfold rank in *. simpl. destruct b; simpl; by apply IH.
Qed.

Lemma wp_conj {S A} (m : M.t S A) E1 E2 (Q1 Q2 : S -> A -> Prop) s :
  wp m E1 Q1 s -> wp m E2 Q2 s ->
  wp m (fun s' e => E1 s' e /\ E2 s' e) (fun s' a => Q1 s' a /\ Q2 s' a) s.
Proof. unfold wp. destruct (m s) as [s' [e|a]]; by split. Qed.

Section all_regions_more.
Context `{Packages}.

Lemma region_mask_disjoint r r' df i :
  r ≠ r' ->
  region_mask r df !! i = Some true -> region_mask r' df !! i = Some true ->
  False.
Proof.
  intros Hne. unfold region_mask. rewrite !lookup_map.
  destruct (df !! i) as [row|]; [|done]. simpl.
  intros [= Hr%bool_decide_eq_true] [= Hr'%bool_decide_eq_true]. congruence.
Qed.

Lemma index_xs_new_tests r df :
  index (xs_new_tests r df) = map date (loc_mask (region_mask r df) df).
Proof. unfold index, xs_new_tests. simpl. by rewrite map_map. Qed.

Lemma wp_call_predict_testcounts_run tc country r rh kd ib kwargs st :
  wp (call_predict_testcounts tc country r rh kd ib kwargs)
     (fun _ _ => True)
     (fun st' res =>
        predicted_new_tests st' = predicted_new_tests st /\
        results st' = results st /\
        exists cs cs',
          predict_testcounts country (RStr r) rh kd ib kwargs (mkCaller tc cs)
          = (cs', inr res))
     st.
Proof.
  unfold wp, call_predict_testcounts.
  destruct (predict_testcounts _ _ _ _ _ _ _) as [st1 [e|res]] eqn:Hrun;
    [done|].
  simpl. eauto.
Qed.

Lemma wp_forecast_region_results df country o r S st :
  inv df S st -> inv_results (df_rows df) country o st -> r ∉ S ->
  wp (forecast_region df country o r)
     (fun _ _ => True)
     (fun st' _ =>
        if decide (10 < n_train r (df_rows df))
        then inv_results (df_rows df) country o st'
        else st' = st)
     st.
Proof.
  intros (Hdom & _ & Hcol) Hres Hr. unfold forecast_region.
  case_bool_decide as Hrows; cbn [negb]; [|by apply wp_raise].
  destruct (10 <? n_train r (df_rows df)) eqn:Hn.
  2:{ apply Z.ltb_ge in Hn.
      destruct (decide (10 < n_train r (df_rows df))); [lia|].
      by apply wp_ret. }
  apply Z.ltb_lt in Hn. destruct (decide (10 < n_train r (df_rows df))); [|lia].
  apply wp_bind. destruct (loc_mask _ _) as [|d0 ds] eqn:Hfirst.
  { by apply wp_raise. }
  apply wp_ret, wp_bind.
  eapply wp_mono; [| |apply wp_call_predict_testcounts_run]; cbv beta; [done|].
  intros st1 res (Hp & Hr1 & cs & cs' & Hrun).
  apply wp_bind, wp_modify. case_decide as Hidx; [|by apply wp_raise].
  apply wp_modify. cbn [predicted_new_tests results batch_calls].
  rewrite Hp, Hr1.
  assert (Hold : length (default (map (fun _ => None) (df_rows df))
                           (predicted_new_tests st)) = length (df_rows df)).
  { destruct (predicted_new_tests st) as [old|]; simpl; [by apply Hcol|].
    by rewrite length_map. }
  intros r0 res0. cbn [predicted_new_tests results batch_calls].
  destruct (decide (r0 = r)) as [->|Hne].
  - rewrite lookup_insert_eq. intros [= <-]. split; [|split].
    + exists d0, cs, cs'. rewrite Hfirst. by split.
    + by rewrite index_xs_new_tests.
    + eexists. split; [done|]. apply loc_mask_set_mask_same.
      rewrite (loc_mask_length _ _ (df_rows df)) by done.
      rewrite <- (length_map date), <- Hidx.
      unfold index, values. by rewrite !length_map.
  - rewrite lookup_insert_ne by done. intros Hlook.
    destruct (Hres r0 res0 Hlook) as (Hcall & Hi & col0 & Hcol0 & Hvals).
    split; [done|]. split; [done|]. rewrite Hcol0. simpl.
    eexists. split; [done|]. rewrite <- Hvals.
    apply loc_mask_set_mask_other. intros i. by apply region_mask_disjoint.
Qed.

Lemma wp_forecast_regions_results df country o regions base S st :
  NoDup regions -> (forall r, r ∈ regions -> r ∉ S) ->
  inv df S st ->
  imputed (batch_calls st) = (base ++ S)%list ->
  inv_results (df_rows df) country o st ->
  wp (forecast_regions df country o regions)
     (fun _ _ => True)
     (fun st' _ =>
        inv df (S ++ filter (fun r => 10 < n_train r (df_rows df)) regions) st' /\
        inv_results (df_rows df) country o st')
     st.
Proof.
  intros Hnd. revert S st.
  induction Hnd as [|r regions Hr Hnd IH]; intros S st Hnew Hinv Hbase Hres.
  { apply wp_ret. simpl. by rewrite app_nil_r. }
  simpl. apply wp_bind.
  eapply wp_mono;
    [| |apply (wp_conj _ _ _ _ _ _
                 (wp_forecast_region df country o r base S st Hinv Hbase)
                 (wp_forecast_region_results df country o r S st Hinv Hres
                    (Hnew r ltac:(left))))];
    cbv beta; [done|].
  intros st' _ [[_ Hpost] Hpost']. case_decide as Hn.
  - destruct Hpost as [Hi Hinv']. rewrite filter_cons_True by done.
    eapply wp_mono;
      [| |apply (IH (S ++ [r])%list st')]; cbv beta; try done.
    + intros st'' _ [Hinv'' Hres'']. by rewrite <- app_assoc in Hinv''.
    + intros r' Hr' [HS|Hs]%elem_of_app.
      * by apply (Hnew r'); [right|].
      * apply list_elem_of_singleton in Hs as ->. done.
  - subst st'. rewrite filter_cons_False by done. apply IH; try done.
    intros r' Hr'. apply Hnew. by right.
Qed.

(** What a batch call that returns has established. *)
Lemma batch_returns df country o calls0 cs column results0 :
  well_formed df ->
  predict_testcounts_all_regions df country o calls0
  = (cs, inr (column, results0)) ->
  let st := mkBatch (Some column) results0 cs in
  inv df (filter (fun r => 10 < n_train r (df_rows df)) (region_levels df)) st /\
  inv_results (df_rows df) country o st.
Proof.
  intros Hwf Hrun.
  pose proof (wp_forecast_regions_results df country o (region_levels df)
                (imputed calls0) [] (mkBatch (df_predicted df) ∅ calls0)
                (proj1 Hwf)) as Hwp.
  unfold predict_testcounts_all_regions, wp, M.bind, M.get, M.ret, M.raise
    in Hrun, Hwp.
  destruct (forecast_regions _ _ _ _ _) as [st1 [e|[]]]; [done|].
  destruct st1 as [[col|] rs cs1]; simplify_eq/=.
  apply Hwp.
  - intros r _. by inversion 1.
  - by apply inv_fresh.
  - by rewrite app_nil_r.
  - intros r res Hl. simpl in Hl. by rewrite lookup_empty in Hl.
Qed.

Lemma reassemble_keeps tc mask fc s k d v :
  reassemble tc mask fc = inr s ->
  entries tc !! k = Some (d, v) ->
  mask !! k ≠ Some true ->
  entries s !! k = Some (d, v).
Proof.
  intros (new & _ & _ & _ & ->)%reassemble_inv He Hm.
  apply lookup_zip_with_Some. exists d, v. split; [done|]. split.
  - unfold index. by rewrite lookup_map, He.
  - rewrite set_mask_lookup_false by done.
    unfold values. by rewrite lookup_map, He.
Qed.

Lemma Timestamp_leb_trans a b c :
  Timestamp_leb a b = true -> Timestamp_leb b c = true ->
  Timestamp_leb a c = true.
Proof.
  unfold Timestamp_leb.
  repeat (case_match; try done); lia.
Qed.

Lemma Timestamp_max_ge a b : Timestamp_leb a (Timestamp_max a b) = true.
Proof.
  unfold Timestamp_max. destruct (Timestamp_leb b a) eqn:Hba.
  - apply Timestamp_leb_refl.
  - by apply Timestamp_leb_total.
Qed.

(** The series of a region whose result passed the check of line 275 is in
    ascending order of date. *)
Lemma region_call_ascending df country o r res :
  region_call df country o r res ->
  index (result res) = index (xs_new_tests r df) ->
  sort_index (entries (xs_new_tests r df)) = entries (xs_new_tests r df).
Proof.
  intros (d0 & cs & cs' & _ & Hrun) Hidx.
  apply predict_testcounts_returns in Hrun as (_ & fl & _ & Hres).
  apply reassemble_index in Hres. rewrite Hidx in Hres.
  apply sort_index_id. unfold ascending. unfold index in Hres at 1.
  rewrite Hres. apply sort_index_ascending.
Qed.

(** The value the column has at a row of a region that was forecast. *)
Lemma batch_row df country o calls0 cs column results0 i row :
  well_formed df ->
  predict_testcounts_all_regions df country o calls0
  = (cs, inr (column, results0)) ->
  df_rows df !! i = Some row ->
  10 < n_train (region row) (df_rows df) ->
  let tc := xs_new_tests (region row) (df_rows df) in
  let k := rank (region_mask (region row) (df_rows df)) i in
  exists res,
    results0 !! region row = Some res /\
    region_call (df_rows df) country o (region row) res /\
    entries tc !! k = Some (date row, new_tests row) /\
    sort_index (entries tc) = entries tc /\
    forall v, entries (result res) !! k = Some (date row, v) ->
              column !! i = Some v.
Proof.
  intros Hwf Hrun Hi Hn tc k.
  destruct (batch_returns _ _ _ _ _ _ _ Hwf Hrun) as [(Hdom & _ & Hcol) Hres].
  simpl in Hdom, Hcol, Hres.
  assert (Hin : region row ∈ dom results0).
  { rewrite Hdom, elem_of_list_to_set, list_elem_of_filter.
    split; [done|]. destruct Hwf as (_ & Hlevels & _).
    apply (proj1 (Forall_forall _ _) Hlevels). by eapply list_elem_of_lookup_2. }
  apply elem_of_dom in Hin as [res Hlook]. exists res. split; [done|].
  destruct (Hres _ _ Hlook) as (Hcall & Hidx & col & [= <-] & Hvals).
  destruct (Hcol column eq_refl) as [Hlen _].
  assert (Hm : region_mask (region row) (df_rows df) !! i = Some true).
  { rewrite (region_mask_lookup _ _ _ _ Hi). by rewrite bool_decide_eq_true_2. }
  split; [done|]. split; [|split].
  - subst tc k. unfold xs_new_tests. simpl. rewrite lookup_map.
    by rewrite (loc_mask_lookup _ _ _ _ Hm Hi).
  - by eapply region_call_ascending.
  - intros v Hv.
    destruct (lookup_lt_is_Some_2 column i) as [v' Hv'].
    { rewrite Hlen. by eapply lookup_lt_Some. }
    pose proof (loc_mask_lookup _ _ _ _ Hm Hv') as Hk.
    rewrite Hvals in Hk. unfold values in Hk. fold k in Hk.
    rewrite lookup_map, Hv in Hk. simpl in Hk. congruence.
Qed.

(** X15.  The column a batch call returns for a well-formed frame has one
    value for each row of the frame; for every region of the results, it has
    at the rows of the region the values of the series returned for the
    region, in the order of the rows, and that series has the dates of
    these rows as its index. *)
Theorem batch_column_values df country o calls0 cs column results0 :
  well_formed df ->
  predict_testcounts_all_regions df country o calls0
  = (cs, inr (column, results0)) ->
  length column = length (df_rows df) /\
  forall r res,
    results0 !! r = Some res ->
    loc_mask (region_mask r (df_rows df)) column = values (result res) /\
    index (result res)
    = map date (loc_mask (region_mask r (df_rows df)) (df_rows df)).
Proof.
  intros Hwf Hrun.
  destruct (batch_returns _ _ _ _ _ _ _ Hwf Hrun) as [(_ & _ & Hcol) Hres].
  split; [by apply (Hcol column)|].
  intros r res Hlook.
  destruct (Hres _ _ Hlook) as (_ & Hidx & col & [= <-] & Hvals).
  by rewrite <- index_xs_new_tests.
Qed.

(** X16.  A batch call on a well-formed frame returns only if the rows of
    every region with more than 10 observations are in ascending order of
    date in the frame. *)
Theorem batch_needs_ascending_dates df country o calls0 cs column results0 r :
  well_formed df ->
  predict_testcounts_all_regions df country o calls0
  = (cs, inr (column, results0)) ->
  r ∈ map region (df_rows df) ->
  10 < n_train r (df_rows df) ->
  ascending (map date (loc_mask (region_mask r (df_rows df)) (df_rows df))).
Proof.
  intros Hwf Hrun (row & -> & Hrow)%list_elem_of_fmap Hn.
  apply list_elem_of_lookup in Hrow as [i Hi].
  destruct (batch_row _ _ _ _ _ _ _ _ _ Hwf Hrun Hi Hn)
    as (res & _ & _ & _ & Hsorted & _).
  rewrite <- index_xs_new_tests. unfold index. rewrite <- Hsorted.
  apply sort_index_ascending.
Qed.

(** X17.  Unless the caller overrides [keep_data] with [False], the column a
    batch call returns for a well-formed frame has, at every row with an
    observation of a region with more than 10 observations, that
    observation. *)
Theorem batch_keeps_observed df country o calls0 cs column results0 i row q :
  well_formed df ->
  predict_testcounts_all_regions df country o calls0
  = (cs, inr (column, results0)) ->
  o_keep_data o ≠ Some false ->
  df_rows df !! i = Some row ->
  10 < n_train (region row) (df_rows df) ->
  new_tests row = Some q ->
  column !! i = Some (Some q).
Proof.
  intros Hwf Hrun Hkd Hi Hn Hq.
  destruct (batch_row _ _ _ _ _ _ _ _ _ Hwf Hrun Hi Hn)
    as (res & _ & (d0 & cs0 & cs1 & _ & Hcall) & Hk & Hsorted & Hcol).
  apply Hcol.
  assert (default true (o_keep_data o) = true) as Hkeep.
  { by destruct (o_keep_data o) as [[]|]. }
  rewrite Hkeep in Hcall.
  apply predict_testcounts_returns in Hcall as (_ & fl & _ & Hres).
  eapply reassemble_keeps; [done| |].
  - unfold normalized. cbn [testcounts entries]. by rewrite Hsorted, Hk, Hq.
  - eapply mask_predict_keep. unfold normalized. cbn [testcounts entries].
    by rewrite Hsorted, Hk, Hq.
Qed.

(** X18.  Unless the caller overrides [ignore_before], the column a batch
    call returns for a well-formed frame has, at every row dated before
    2020-03-15 of a region with more than 10 observations, the value of the
    frame: an observation is kept, also with [keep_data=False], and a
    missing value stays missing. *)
Theorem batch_before_march_15 df country o calls0 cs column results0 i row :
  well_formed df ->
  predict_testcounts_all_regions df country o calls0
  = (cs, inr (column, results0)) ->
  o_ignore_before o = None ->
  df_rows df !! i = Some row ->
  10 < n_train (region row) (df_rows df) ->
  Timestamp_geb (date row) (mkTimestamp 2020 3 15) = false ->
  column !! i = Some (new_tests row).
Proof.
  intros Hwf Hrun Hib Hi Hn Hd.
  destruct (batch_row _ _ _ _ _ _ _ _ _ Hwf Hrun Hi Hn)
    as (res & _ & (d0 & cs0 & cs1 & _ & Hcall) & Hk & Hsorted & Hcol).
  apply Hcol. rewrite Hib in Hcall. simpl in Hcall.
  apply predict_testcounts_returns in Hcall as (_ & fl & [= <-] & Hres).
  eapply reassemble_keeps; [done| |].
  - unfold normalized. cbn [testcounts entries]. by rewrite Hsorted, Hk.
  - eapply mask_predict_before_floor.
    + unfold normalized. cbn [testcounts entries]. by rewrite Hsorted, Hk.
    + unfold Timestamp_geb in *.
      destruct (Timestamp_leb (Timestamp_max _ _) (date row)) eqn:Hle; [|done].
      rewrite <- Hd. symmetry.
      eapply Timestamp_leb_trans; [apply Timestamp_max_ge|done].
Qed.

Lemma observed_count (es : list (Timestamp * float)) :
  length (loc_mask (map negb (map isnan (map snd es))) (map fst es))
  = length (filter (fun v => isnan v = false) (map snd es)).
Proof.
  induction es as [|[d v] es IH]; [done|]. cbn [map fst snd].
  destruct v as [q|].
  - rewrite filter_cons_True by done. simpl. by rewrite IH.
  - rewrite filter_cons_False by done. simpl. exact IH.
Qed.

Lemma forecast_regions_skip_app df country o skipped rest st :
  Forall (fun r => r ∈ map region (df_rows df) /\
                   n_train r (df_rows df) <= 10) skipped ->
  forecast_regions df country o (skipped ++ rest) st
  = forecast_regions df country o rest st.
Proof.
  induction 1 as [|r skipped [Hrows Hr] _ IH]; [done|].
  simpl. unfold M.bind at 1. unfold forecast_region.
  rewrite bool_decide_eq_true_2 by done. cbn [negb].
  assert ((10 <? n_train r (df_rows df)) = false) as -> by by apply Z.ltb_ge.
  simpl. apply IH.
Qed.

(** The check of lines 149-153 on a series that is not empty. *)
Lemma one_region_check_raises country region kd ib kwargs st :
  entries (testcounts st) ≠ [] ->
  eq_all region = false ->
  (length (atleast_1d region) <= 1)%nat ->
  predict_testcounts country region true kd ib kwargs st
  = (mkCaller (normalized (testcounts st)) (calls st),
     inl ValueError_regional_holidays).
Proof.
  destruct st as [[iname nm es] cs]. simpl. intros Hes Hall Hlen.
  assert (Hone : national_or_one_region region && true = true).
  { unfold national_or_one_region. rewrite Hall. simpl.
    rewrite andb_true_r. by apply Nat.leb_le. }
  destruct (sort_index es) as [|e ses] eqn:Hs.
  { by apply sort_index_nil in Hs. }
  destruct es as [|e0 es]; [done|].
  assert (Hlast : is_Some (last (e.1 :: map fst ses))) by by apply last_is_Some.
  destruct Hlast as [lst Hlast].
  unfold predict_testcounts, update_testcounts, index_first, index_last,
    M.bind, M.modify, M.get, M.ret, M.raise, normalized, index.
  destruct ib as [t|]; cbn -[sort_index last]; rewrite Hs;
    cbn -[sort_index last]; rewrite Hlast, Hone; done.
Qed.

(** X19.  A batch call with [regional_holidays=True] raises the error of
    line 150 at the first region with more than 10 observations, unless
    that region is the pseudo-region ["all"] or a label of the level before
    it has no rows: every region is passed to [predict_testcounts] as a
    single region.  Nothing is fetched or fitted before. *)
Theorem batch_regional_holidays_raises
    df country o calls0 skipped r rest :
  o_regional_holidays o = Some true ->
  region_levels df = (skipped ++ r :: rest)%list ->
  Forall (fun r' => r' ∈ map region (df_rows df) /\
                    n_train r' (df_rows df) <= 10) skipped ->
  10 < n_train r (df_rows df) ->
  r ≠ "all" ->
  predict_testcounts_all_regions df country o calls0
  = ((calls0 ++ [Call_predict_testcounts r])%list,
     inl ValueError_regional_holidays).
Proof.
  intros Hrh Hlevels Hskip Hn Hr.
  unfold predict_testcounts_all_regions. rewrite Hlevels.
  unfold M.bind at 1. rewrite forecast_regions_skip_app by done.
  simpl. unfold M.bind at 1. unfold forecast_region.
  rewrite bool_decide_eq_true_2 by (apply n_train_elem_of; lia). cbn [negb].
  assert ((10 <? n_train r (df_rows df)) = true) as -> by by apply Z.ltb_lt.
  assert (Hobs : (0 < length (loc_mask
                     (map negb (map isnan (values (xs_new_tests r (df_rows df)))))
                     (index (xs_new_tests r (df_rows df)))))%nat).
  { unfold index, values. rewrite observed_count. unfold n_train, values in Hn.
    lia. }
  destruct (loc_mask _ _) as [|d0 ds] eqn:Hfirst; [simpl in Hobs; lia|].
  assert (Hne : entries (xs_new_tests r (df_rows df)) ≠ []).
  { intros Hnil. unfold index, values in Hfirst. rewrite Hnil in Hfirst.
    done. }
  unfold M.bind, M.ret, call_predict_testcounts. rewrite Hrh. simpl default.
  rewrite one_region_check_raises; [done|done| |done].
  simpl. by rewrite bool_decide_eq_false_2.
Qed.

(** X21.  A batch call raises the [KeyError] of [df.xs] (line 254) at the
    first label of the region level that no row of the frame has, when the
    regions before it have at most 10 observations: the level of a frame
    keeps the labels of rows that were filtered out.  Neither the imputer
    nor a package is called. *)
Theorem batch_unused_level_raises df country o calls0 skipped r rest :
  region_levels df = (skipped ++ r :: rest)%list ->
  Forall (fun r' => r' ∈ map region (df_rows df) /\
                    n_train r' (df_rows df) <= 10) skipped ->
  r ∉ map region (df_rows df) ->
  predict_testcounts_all_regions df country o calls0
  = (calls0, inl (KeyError_xs r)).
Proof.
  intros Hlevels Hskip Hr.
  unfold predict_testcounts_all_regions. rewrite Hlevels.
  unfold M.bind at 1. rewrite forecast_regions_skip_app by done.
  simpl. unfold M.bind at 1. unfold forecast_region.
  by rewrite bool_decide_eq_false_2.
Qed.

End all_regions_more.


(** ** The properties on concrete calls *)

Import Cases.


Lemma run_returned_pair {S A B} (d : A * B) (run : S * (Exception + A * B)) :
  returns run.2 = true ->
  run = (run.1, inr ((returned d run.2).1, (returned d run.2).2)).
Proof. destruct run as [s [e|[a b]]]; by simpl. Qed.

Lemma Germany_resolves :
  iso3166_alpha3 "DE" = Some "DEU" /\
  holidays_getattr "DEU" = Some (CountryClass Germany).
Proof. split; reflexivity. Qed.

(** [get_holidays_national] for Germany and the empty string. *)
Lemma get_holidays_national_demo :
  falsy (RStr "") = true /\
  get_holidays "DE" (RStr "") {[ 2020 ]}
  = inr (construct Germany {[ 2020 ]} None None).
Proof.
  assert (Hf : falsy (RStr "") = true) by reflexivity.
  split; [exact Hf|].
  exact (get_holidays_national "DE" "DEU" Germany (RStr "") {[ 2020 ]}
           (proj1 Germany_resolves) (proj2 Germany_resolves) Hf).
Defined.

(** [get_holidays_returns_iff] for Germany and the province [BY]. *)
Lemma get_holidays_returns_iff_demo :
  ((exists m, get_holidays "DE" (RStr "BY") {[ 2020 ]} = inr m) <->
   Forall (known_region Germany) (requested_regions Germany (RStr "BY"))) /\
  (exists m, get_holidays "DE" (RStr "all") {[ 2020 ]} = inr m).
Proof.
  exact (get_holidays_returns_iff "DE" "DEU" Germany (RStr "BY") {[ 2020 ]}
           (proj1 Germany_resolves) (proj2 Germany_resolves)).
Defined.



(** The names of a date of two calendars are joined by the package. *)
Example joined_names :
  holidays_stored_name "Neujahr" "Neujahr" = "Neujahr" /\
  holidays_stored_name "Mariae Himmelfahrt" "Assumption Day"
  = "Mariae Himmelfahrt, Assumption Day" /\
  get_holidays "DE" (RList ["BY"]) {[ 2020 ]}
  = inr {[ mkTimestamp 2020 1 1 := "Neujahr";
           mkTimestamp 2020 8 15 := "Mariae Himmelfahrt" ]}.
Proof. split_and!; vm_compute; reflexivity. Qed.

(** [get_holidays_one_region] for the province [BY]. *)
Lemma get_holidays_one_region_demo :
  "BY" ≠ "" /\ "BY" ≠ "all" /\
  get_holidays "DE" (RStr "BY") {[ 2020 ]}
  = get_holidays "DE" (RList ["BY"]) {[ 2020 ]}.
Proof.
  assert (H1 : "BY" ≠ "") by done. assert (H2 : "BY" ≠ "all") by done.
  split; [exact H1|]. split; [exact H2|].
  exact (get_holidays_one_region "DE" "BY" {[ 2020 ]} H1 H2).
Defined.

(** [get_holidays_unknown_region] for Germany and the regions [BY], [XX]
    and [BW]. *)
Lemma get_holidays_unknown_region_demo :
  requested_regions Germany (RList ["BY"; "XX"; "BW"])
  = ([Some "BY"] ++ Some "XX" :: [Some "BW"])%list /\
  Forall (known_region Germany) [Some "BY"] /\
  ~ known_region Germany (Some "XX") /\
  get_holidays "DE" (RList ["BY"; "XX"; "BW"]) {[ 2020 ]}
  = inl (KeyError_region (region_repr (Some "XX")) "DEU").
Proof.
  assert (Hreq : requested_regions Germany (RList ["BY"; "XX"; "BW"])
                 = ([Some "BY"] ++ Some "XX" :: [Some "BW"])%list)
    by reflexivity.
  assert (Hknown : Forall (known_region Germany) [Some "BY"]).
  { repeat constructor. }
  assert (Hbad : ~ known_region Germany (Some "XX")).
  { unfold known_region. simpl. rewrite !elem_of_cons, !elem_of_nil.
    by intros [[?|[?|[]]]|[]]. }
  split; [exact Hreq|]. split; [exact Hknown|]. split; [exact Hbad|].
  exact (get_holidays_unknown_region "DE" "DEU" Germany
           (RList ["BY"; "XX"; "BW"]) {[ 2020 ]} [Some "BY"] (Some "XX")
           [Some "BW"] (proj1 Germany_resolves) (proj2 Germany_resolves)
           Hreq Hknown Hbad).
Defined.

(** [predict_testcounts_empty] with all the regions of Germany asked for. *)
Lemma predict_testcounts_empty_demo :
  entries (testcounts (series [])) = [] /\
  predict_testcounts "DE" (RStr "all") true false None ∅ (series [])
  = (mkCaller (mkSeries (Some "date") (Some "total") [])
       (calls (series [])), inl IndexError).
Proof.
  assert (Hnil : entries (testcounts (series [])) = []) by reflexivity.
  split; [exact Hnil|].
  exact (predict_testcounts_empty "DE" (RStr "all") true false None ∅
           (series []) Hnil).
Defined.

(** [dates_before_floor_untouched] with the floor on March 2 and
    [keep_data=False]. *)
Lemma dates_before_floor_untouched_demo :
  let st := series sorted_series in
  let run :=
    predict_testcounts "DE" RNone false false (Some (march 2)) ∅ st in
  let r := returned no_result run.2 in
  returns run.2 = true /\
  exists floor,
    floor_of (Some (march 2)) (testcounts st) = Some floor /\
    forall i d v,
      sort_index (entries (testcounts st)) !! i = Some (d, v) ->
      Timestamp_geb d floor = false ->
      entries (result r) !! i = Some (d, v).
Proof.
  intros st run r.
  assert (Hret : returns run.2 = true) by (vm_compute; reflexivity).
  split; [exact Hret|].
  exact (dates_before_floor_untouched "DE" RNone false false
           (Some (march 2)) ∅ st run.1 r (run_returned no_result run Hret)).
Defined.

(** [calls_of_a_returning_run] on the series of March 1 to 3. *)
Lemma calls_of_a_returning_run_demo :
  let st := series sorted_series in
  let run := predict_testcounts "DE" RNone false true None ∅ st in
  let tc := normalized (testcounts st) in
  returns run.2 = true /\
  exists floor first lst holiday_df,
    let kw := ∅ ∪ default_prophet_kwargs holiday_df
                    (days_between lst first) in
    floor_of None (testcounts st) = Some floor /\
    head (index tc) = Some first /\
    last (index tc) = Some lst /\
    calls run.1
    = (calls st
       ++ holiday_calls "DE" RNone false {[ year first; year lst ]}
       ++ [Call_Prophet kw; Call_fit (fit_frame kw floor tc);
           Call_predict (predict_frame kw tc)])%list.
Proof.
  intros st run tc.
  assert (Hret : returns run.2 = true) by (vm_compute; reflexivity).
  split; [exact Hret|].
  exact (calls_of_a_returning_run "DE" RNone false true None ∅ st run.1
           (returned no_result run.2) (run_returned no_result run Hret)).
Defined.

(** [returned_model_and_holidays] on the series of March 1 to 3. *)
Lemma returned_model_and_holidays_demo :
  let st := series sorted_series in
  let run := predict_testcounts "DE" RNone false true None ∅ st in
  let r := returned no_result run.2 in
  let tc := normalized (testcounts st) in
  returns run.2 = true /\
  exists floor first lst holiday_df m0,
    let kw := ∅ ∪ default_prophet_kwargs holiday_df
                    (days_between lst first) in
    floor_of None (testcounts st) = Some floor /\
    head (index tc) = Some first /\
    last (index tc) = Some lst /\
    get_holidays "DE" (holiday_selector RNone false)
      {[ year first; year lst ]} = inr (all_holidays r) /\
    Prophet_init kw = inr m0 /\
    Prophet_fit m0 (fit_frame kw floor tc) = inr (model r) /\
    Prophet_predict (model r) (predict_frame kw tc) = inr (forecast r).
Proof.
  intros st run r tc.
  assert (Hret : returns run.2 = true) by (vm_compute; reflexivity).
  split; [exact Hret|].
  exact (returned_model_and_holidays "DE" RNone false true None ∅ st run.1 r
           (run_returned no_result run Hret)).
Defined.

(** [holiday_error_propagates] for a country [iso3166] does not know. *)
Lemma holiday_error_propagates_demo :
  let st := series unsorted_series in
  head (index (normalized (testcounts st))) = Some (march 1) /\
  last (index (normalized (testcounts st))) = Some (march 3) /\
  national_or_one_region RNone && false = false /\
  get_holidays "Atlantis" (holiday_selector RNone false)
    {[ year (march 1); year (march 3) ]}
  = inl (KeyError_iso3166 "Atlantis") /\
  predict_testcounts "Atlantis" RNone false true None ∅ st
  = (mkCaller (normalized (testcounts st))
       (calls st ++ [Call_get_holidays "Atlantis" (holiday_selector RNone false)
                       {[ year (march 1); year (march 3) ]}]),
     inl (KeyError_iso3166 "Atlantis")).
Proof.
  intros st.
  assert (H1 : head (index (normalized (testcounts st))) = Some (march 1))
    by reflexivity.
  assert (H2 : last (index (normalized (testcounts st))) = Some (march 3))
    by reflexivity.
  assert (H3 : national_or_one_region RNone && false = false) by reflexivity.
  assert (H4 : get_holidays "Atlantis" (holiday_selector RNone false)
                 {[ year (march 1); year (march 3) ]}
               = inl (KeyError_iso3166 "Atlantis"))
    by (vm_compute; reflexivity).
  split; [exact H1|]. split; [exact H2|]. split; [exact H3|].
  split; [exact H4|].
  exact (holiday_error_propagates "Atlantis" RNone false true None ∅ st
           (march 1) (march 3) (KeyError_iso3166 "Atlantis") H1 H2 H3 H4).
Defined.

(** [result_series_shape] on the series passed with the dates 2, 1, 3 of
    March. *)
Lemma result_series_shape_demo :
  let st := series unsorted_series in
  let run := predict_testcounts "DE" RNone false true None ∅ st in
  let r := returned no_result run.2 in
  returns run.2 = true /\
  index_name (result r) = Some "date" /\
  name (result r) = Some "testcount" /\
  length (entries (result r)) = length (entries (testcounts st)).
Proof.
  intros st run r.
  assert (Hret : returns run.2 = true) by (vm_compute; reflexivity).
  split; [exact Hret|].
  exact (result_series_shape "DE" RNone false true None ∅ st run.1 r
           (run_returned no_result run Hret)).
Defined.


(** [holiday_regressors] on the series of March 1 to 3. *)
Lemma holiday_regressors_demo :
  let st := series sorted_series in
  let run := predict_testcounts "DE" RNone false true None ∅ st in
  let r := returned no_result run.2 in
  returns run.2 = true /\
  exists first lst holiday_df prophet_kwargs,
    head (index (normalized (testcounts st))) = Some first /\
    last (index (normalized (testcounts st))) = Some lst /\
    Call_Prophet prophet_kwargs ∈ calls run.1 /\
    ((∅ : gmap string KwValue) !! "holidays" = None ->
     prophet_kwargs !! "holidays" = Some (KwFrame holiday_df)) /\
    regressor_rows "DE" RNone false {[ year first; year lst ]}
      (all_holidays r) holiday_df.
Proof.
  intros st run r.
  assert (Hret : returns run.2 = true) by (vm_compute; reflexivity).
  split; [exact Hret|].
  exact (holiday_regressors "DE" RNone false true None ∅ st run.1 r
           (run_returned no_result run Hret)).
Defined.

Lemma well_formed_frame : well_formed frame.
Proof. apply well_formed_frame_of. Qed.

Lemma well_formed_stale_frame : well_formed stale_frame.
Proof. apply well_formed_with_predicted; [apply well_formed_frame_of|done]. Qed.

(** [batch_column_values] on the frame of [BY] and [BW]. *)
Lemma batch_column_values_demo :
  let run := predict_testcounts_all_regions frame "DE" no_overrides [] in
  let column := (returned ([], ∅) run.2).1 in
  let results := (returned ([], ∅) run.2).2 in
  well_formed frame /\
  returns run.2 = true /\
  length column = length (df_rows frame) /\
  forall r res,
    results !! r = Some res ->
    loc_mask (region_mask r (df_rows frame)) column = values (result res) /\
    index (result res)
    = map date (loc_mask (region_mask r (df_rows frame)) (df_rows frame)).
Proof.
  intros run column results.
  assert (Hret : returns run.2 = true) by (vm_compute; reflexivity).
  split; [exact well_formed_frame|]. split; [exact Hret|].
  exact (batch_column_values frame "DE" no_overrides [] run.1 column results
           well_formed_frame (run_returned_pair ([], ∅) run Hret)).
Defined.

(** [batch_needs_ascending_dates] for [BY]. *)
Lemma batch_needs_ascending_dates_demo :
  let run := predict_testcounts_all_regions frame "DE" no_overrides [] in
  well_formed frame /\
  returns run.2 = true /\
  "BY" ∈ map region (df_rows frame) /\
  10 < n_train "BY" (df_rows frame) /\
  ascending (map date (loc_mask (region_mask "BY" (df_rows frame))
                         (df_rows frame))).
Proof.
  intros run.
  assert (Hret : returns run.2 = true) by (vm_compute; reflexivity).
  assert (Hin : "BY" ∈ map region (df_rows frame)) by left.
  assert (Hn : 10 < n_train "BY" (df_rows frame)) by (vm_compute; reflexivity).
  split; [exact well_formed_frame|].
  split; [exact Hret|]. split; [exact Hin|]. split; [exact Hn|].
  exact (batch_needs_ascending_dates frame "DE" no_overrides [] run.1 _ _ "BY"
           well_formed_frame (run_returned_pair ([], ∅) run Hret) Hin Hn).
Defined.

(** [batch_keeps_observed] for the first row of [BY], on the frame that has
    the value 7 in a column [predicted_new_tests] already. *)
Lemma batch_keeps_observed_demo :
  let run := predict_testcounts_all_regions stale_frame "DE" no_overrides [] in
  let column := (returned ([], ∅) run.2).1 in
  let row := {| region := "BY"; date := march 16; new_tests := Some 160%Q |} in
  well_formed stale_frame /\
  returns run.2 = true /\
  o_keep_data no_overrides ≠ Some false /\
  df_rows stale_frame !! 0%nat = Some row /\
  10 < n_train (region row) (df_rows stale_frame) /\
  new_tests row = Some 160%Q /\
  column !! 0%nat = Some (Some 160%Q).
Proof.
  intros run column row.
  assert (Hret : returns run.2 = true) by (vm_compute; reflexivity).
  assert (Hkd : o_keep_data no_overrides ≠ Some false) by done.
  assert (Hrow : df_rows stale_frame !! 0%nat = Some row) by reflexivity.
  assert (Hn : 10 < n_train (region row) (df_rows stale_frame))
    by (vm_compute; reflexivity).
  assert (Hq : new_tests row = Some 160%Q) by reflexivity.
  split; [exact well_formed_stale_frame|].
  split; [exact Hret|]. split; [exact Hkd|]. split; [exact Hrow|].
  split; [exact Hn|]. split; [exact Hq|].
  exact (batch_keeps_observed stale_frame "DE" no_overrides [] run.1 column _
           0%nat row 160%Q well_formed_stale_frame
           (run_returned_pair ([], ∅) run Hret) Hkd Hrow Hn Hq).
Defined.

(** [batch_before_march_15] for the row of March 12, which has no value. *)
Lemma batch_before_march_15_demo :
  let run := predict_testcounts_all_regions early_frame "DE" no_overrides [] in
  let column := (returned ([], ∅) run.2).1 in
  let row := {| region := "BY"; date := march 12; new_tests := None |} in
  well_formed early_frame /\
  returns run.2 = true /\
  o_ignore_before no_overrides = None /\
  df_rows early_frame !! 2%nat = Some row /\
  10 < n_train (region row) (df_rows early_frame) /\
  Timestamp_geb (date row) (mkTimestamp 2020 3 15) = false /\
  column !! 2%nat = Some None.
Proof.
  intros run column row.
  assert (Hwf : well_formed early_frame) by apply well_formed_frame_of.
  assert (Hret : returns run.2 = true) by (vm_compute; reflexivity).
  assert (Hib : o_ignore_before no_overrides = None) by reflexivity.
  assert (Hrow : df_rows early_frame !! 2%nat = Some row) by reflexivity.
  assert (Hn : 10 < n_train (region row) (df_rows early_frame))
    by (vm_compute; reflexivity).
  assert (Hd : Timestamp_geb (date row) (mkTimestamp 2020 3 15) = false)
    by reflexivity.
  split; [exact Hwf|].
  split; [exact Hret|]. split; [exact Hib|]. split; [exact Hrow|].
  split; [exact Hn|]. split; [exact Hd|].
  exact (batch_before_march_15 early_frame "DE" no_overrides [] run.1 column _
           2%nat row Hwf (run_returned_pair ([], ∅) run Hret) Hib Hrow Hn Hd).
Defined.

(** [batch_regional_holidays_raises] on the frame of [BY] and [BW]: [BW] is
    passed over and the call for [BY] raises. *)
Lemma batch_regional_holidays_raises_demo :
  o_regional_holidays regional_overrides = Some true /\
  region_levels frame = (["BW"] ++ "BY" :: [])%list /\
  Forall (fun r' => r' ∈ map region (df_rows frame) /\
                    n_train r' (df_rows frame) <= 10) ["BW"] /\
  10 < n_train "BY" (df_rows frame) /\
  "BY" ≠ "all" /\
  predict_testcounts_all_regions frame "DE" regional_overrides []
  = (([] ++ [Call_predict_testcounts "BY"])%list,
     inl ValueError_regional_holidays).
Proof.
  assert (H1 : o_regional_holidays regional_overrides = Some true)
    by reflexivity.
  assert (H2 : region_levels frame = (["BW"] ++ "BY" :: [])%list)
    by (vm_compute; reflexivity).
  assert (H3 : Forall (fun r' => r' ∈ map region (df_rows frame) /\
                                 n_train r' (df_rows frame) <= 10) ["BW"]).
  { constructor; [|constructor]. split; [|by vm_compute].
    apply list_elem_of_fmap.
    exists {| region := "BW"; date := march 16; new_tests := Some 5%Q |}.
    split; [done|]. apply elem_of_app. right. left. }
  assert (H4 : 10 < n_train "BY" (df_rows frame)) by (vm_compute; reflexivity).
  assert (H5 : "BY" ≠ "all") by done.
  split; [exact H1|]. split; [exact H2|]. split; [exact H3|].
  split; [exact H4|]. split; [exact H5|].
  exact (batch_regional_holidays_raises frame "DE" regional_overrides []
           ["BW"] "BY" [] H1 H2 H3 H4 H5).
Defined.

(** [batch_unused_level_raises] on the rows of [BW] under a level that kept
    the label [BY]. *)
Lemma batch_unused_level_raises_demo :
  region_levels sliced_frame = (["BW"] ++ "BY" :: [])%list /\
  Forall (fun r' => r' ∈ map region (df_rows sliced_frame) /\
                    n_train r' (df_rows sliced_frame) <= 10) ["BW"] /\
  ("BY" ∉ map region (df_rows sliced_frame)) /\
  predict_testcounts_all_regions sliced_frame "DE" no_overrides []
  = ([], inl (KeyError_xs "BY")).
Proof.
  assert (H1 : region_levels sliced_frame = (["BW"] ++ "BY" :: [])%list)
    by reflexivity.
  assert (H2 : Forall (fun r' => r' ∈ map region (df_rows sliced_frame) /\
                                 n_train r' (df_rows sliced_frame) <= 10)
                 ["BW"]).
  { constructor; [|constructor]. split; [left|by vm_compute]. }
  assert (H3 : "BY" ∉ map region (df_rows sliced_frame)).
  { simpl. rewrite !elem_of_cons, elem_of_nil. by intros [?|[?|[]]]. }
  split; [exact H1|]. split; [exact H2|]. split; [exact H3|].
  exact (batch_unused_level_raises sliced_frame "DE" no_overrides []
           ["BW"] "BY" [] H1 H2 H3).
Defined.
